(** * Frog: the OCR language-pack manager ([frog/language_manager.py])

    A shallow embedding of [LanguageManager]: the static catalog of
    language codes, the cached listing of the data directory, the
    two-tier download and the removal of installed packs.

    Python values are modelled as follows.
    - [str] is [string]; comparison of strings is the lexicographic
      comparison of their bytes, which on UTF-8 text is the order of
      the code points that Python compares.
    - [int] is [Z]; the one float of the module, the quotient in
      [int(a / b)], is computed on integers with the rounding of an
      IEEE 754 double.
    - [None] in a place that holds a string is [option string].
    - The insertion-ordered [dict] holding the catalog is an association
      list in insertion order; [loading_languages] and the file system,
      whose order is never observed by the manager's own logic, are
      finite maps.
    - Exceptions and mutation are threaded through a state-and-outcome
      monad: a raising call still returns the state it reached. *)

From Stdlib Require Import ZArith Ascii String List Bool Lia Permutation Sorted.
From stdpp Require Import base option list gmap strings sorting.

Local Open Scope Z_scope.

(** ** Python primitives *)

Module Py.

(** Exceptions that the modelled calls can raise. *)
Inductive exn : Type :=
| ZeroDivisionError
| OverflowError
| TypeError
| KeyError
| FileNotFoundError
| NotADirectoryError
| URLError
| ContentTooShortError
| ConnectionError.

(** A call either returns a value or raises. *)
Inductive outcome (A : Type) : Type :=
| Returned (a : A)
| Raised (e : exn).
Arguments Returned {A} a.
Arguments Raised {A} e.

(** Truthiness of a value that is [None] or a [str]: [None] and the
    empty string are falsy. *)
Definition truthy (v : option string) : bool :=
  match v with
  | None => false
  | Some EmptyString => false
  | Some (String _ _) => true
  end.

(** *** Floats

    A finite, non-negative double is a pair [(m, e)] that stands for
    [m * 2^e], with [0 <= m <= 2^53] and [-1074 <= e].  A power of two
    with an integer exponent of either sign is kept as a fraction
    [pow2_num k / pow2_den k]. *)
Definition pow2_num (k : Z) : Z := 2 ^ Z.max k 0.
Definition pow2_den (k : Z) : Z := 2 ^ Z.max (- k) 0.

(** [n / d] rounded to the nearest integer, ties to the even one
    ([0 <= n], [0 < d]). *)
Definition round_half_even (n d : Z) : Z :=
  let q := n / d in
  let r := n mod d in
  if 2 * r <? d then q
  else if d <? 2 * r then q + 1
  else if Z.even q then q else q + 1.

(** The integer part of the base-2 logarithm of [n / d] ([0 < n],
    [0 < d]). *)
Definition log2_quotient (n d : Z) : Z :=
  let e := Z.log2 n - Z.log2 d in
  if d * pow2_num e <=? n * pow2_den e then e else e - 1.

(** The quotient [n / d] is at least, or is below, [2^k]. *)
Definition ge_pow2 (n d k : Z) : Prop := d * pow2_num k <= n * pow2_den k.
Definition lt_pow2 (n d k : Z) : Prop := n * pow2_den k < d * pow2_num k.

(** The double nearest to [n / d], ties to even, as IEEE 754 binary64
    rounds: 53 bits of mantissa, the exponent not below that of the
    subnormal numbers, and no bound on the exponent from above yet. *)
Definition nearest_double (n d : Z) : Z * Z :=
  let e := Z.max (log2_quotient n d - 52) (-1074) in
  (round_half_even (n * pow2_den e) (d * pow2_num e), e).

(** A rounded magnitude of [2^1024] or more is beyond the largest
    double. *)
Definition double_overflows (x : Z * Z) : bool :=
  2 ^ 1024 * pow2_den x.2 <=? x.1 * pow2_num x.2.

(** [int(x)] for a non-negative double: the fraction is cut off. *)
Definition int_of_double (x : Z * Z) : Z :=
  x.1 * pow2_num x.2 / pow2_den x.2.

(** The value of [int(a / b)] when the division returns: the double
    nearest to the quotient, truncated toward zero. *)
Definition int_quotient (a b : Z) : Z :=
  Z.sgn a * Z.sgn b * int_of_double (nearest_double (Z.abs a) (Z.abs b)).

(** [int(a / b)] on Python integers.  [/] is true division: it raises
    [ZeroDivisionError] for [b = 0], yields the double nearest to the
    exact quotient (integers of any size are divided exactly before the
    one rounding), and raises [OverflowError] when that double would be
    out of range; [int] truncates toward zero. *)
Definition int_truediv (a b : Z) : outcome Z :=
  if b =? 0 then Raised ZeroDivisionError
  else if double_overflows (nearest_double (Z.abs a) (Z.abs b)) then Raised OverflowError
  else Returned (int_quotient a b).

(** [s.startswith(c)] and [s.endswith(c)] for a one-character [c]. *)
Definition startswith_char (c : ascii) (s : string) : bool :=
  match s with
  | String a _ => if decide (a = c) then true else false
  | EmptyString => false
  end.

Fixpoint endswith_char (c : ascii) (s : string) : bool :=
  match s with
  | EmptyString => false
  | String a EmptyString => if decide (a = c) then true else false
  | String _ rest => endswith_char c rest
  end.

(** [s.startswith(p)]: the rest of [s] after the prefix [p], if [p] is
    a prefix of [s]. *)
Fixpoint strip_prefix (p s : string) : option string :=
  match p, s with
  | EmptyString, _ => Some s
  | String a p', String b s' =>
      if decide (a = b) then strip_prefix p' s' else None
  | String _ _, EmptyString => None
  end.

Fixpoint contains_char (c : ascii) (s : string) : bool :=
  match s with
  | EmptyString => false
  | String a rest => (if decide (a = c) then true else false) || contains_char c rest
  end.

(** [posixpath.join(a, b)]. *)
Definition os_path_join (a b : string) : string :=
  if startswith_char "/" b then b
  else if (if decide (a = "") then true else false) || endswith_char "/" a
       then a +:+ b
       else a +:+ "/" +:+ b.

(** [s.rfind(c)] cut: [rsplit_char c s = Some (before, after)] splits
    [s] at its last [c], which stays at the head of [after];
    [None] when [c] does not occur. *)
Fixpoint rsplit_char (c : ascii) (s : string) : option (string * string) :=
  match s with
  | EmptyString => None
  | String a rest =>
      match rsplit_char c rest with
      | Some (before, after) => Some (String a before, after)
      | None => if decide (a = c) then Some (EmptyString, s) else None
      end
  end.

(** Does the string hold a character other than [c]? *)
Fixpoint has_other_char (c : ascii) (s : string) : bool :=
  match s with
  | EmptyString => false
  | String a rest => (if decide (a = c) then false else true) || has_other_char c rest
  end.

(** [s.split(c)[0]]: the part of [s] before its first [c]. *)
Fixpoint before_char (c : ascii) (s : string) : string :=
  match s with
  | EmptyString => EmptyString
  | String a rest => if decide (a = c) then EmptyString else String a (before_char c rest)
  end.

(** [p[:p.rfind('/') + 1]]: the path up to and including its last
    separator, which names the directory that holds [p]; empty when
    [p] has no separator. *)
Fixpoint directory_prefix (p : string) : string :=
  match p with
  | EmptyString => EmptyString
  | String a rest => if contains_char "/" p then String a (directory_prefix rest) else EmptyString
  end.

(** [posixpath.splitext] on a base name (no separator): the extension
    starts at the last dot, unless only dots precede it. *)
Definition splitext_base (name : string) : string * string :=
  match rsplit_char "." name with
  | Some (root, ext) =>
      if has_other_char "." root then (root, ext) else (name, EmptyString)
  | None => (name, EmptyString)
  end.

(** [posixpath.splitext(p)]: the last dot counts only when it lies after
    the last separator, and leading dots of the base name are skipped. *)
Definition os_path_splitext (p : string) : string * string :=
  match rsplit_char "/" p with
  | Some (dir, String sep base) =>
      let '(root, ext) := splitext_base base in (dir +:+ String sep root, ext)
  | _ => splitext_base p
  end.

(** An insertion-ordered [dict] with string keys. *)
Definition dict (V : Type) : Type := list (string * V).

(** [d[k] = v]: an existing key keeps its position and takes the new
    value; a new key goes last. *)
Fixpoint dict_setitem {V} (k : string) (v : V) (d : dict V) : dict V :=
  match d with
  | [] => [(k, v)]
  | (k', v') :: rest =>
      if decide (k' = k) then (k', v) :: rest else (k', v') :: dict_setitem k v rest
  end.

(** [d.get(k)]. *)
Fixpoint dict_get {V} (k : string) (d : dict V) : option V :=
  match d with
  | [] => None
  | (k', v) :: rest => if decide (k' = k) then Some v else dict_get k rest
  end.

(** [k in d]. *)
Definition dict_contains {V} (k : string) (d : dict V) : bool :=
  match dict_get k d with Some _ => true | None => false end.

(** [d.keys()], in insertion order. *)
Definition dict_keys {V} (d : dict V) : list string := fst <$> d.

(** [d.values()], in insertion order. *)
Definition dict_values {V} (d : dict V) : list V := snd <$> d.

(** Stable insertion into a list ordered by a string key: the new
    element goes before the first element whose key is not smaller. *)
Fixpoint insert_by {A} (key : A -> string) (x : A) (l : list A) : list A :=
  match l with
  | [] => [x]
  | y :: rest =>
      if String.leb (key x) (key y) then x :: l else y :: insert_by key x rest
  end.

(** The stable sort of [l] by [key]: elements with equal keys keep
    their order, as in Python's [sorted]. *)
Fixpoint sort_by {A} (key : A -> string) (l : list A) : list A :=
  match l with
  | [] => []
  | x :: rest => insert_by key x (sort_by key rest)
  end.

(** [sorted(l, key=key)] where the key function may return [None]:
    comparing [None] with anything raises [TypeError], and every element
    of a list of two or more takes part in a comparison. *)
Definition sorted {A} (key : A -> option string) (l : list A) : outcome (list A) :=
  if forallb (fun x => bool_decide (is_Some (key x))) l
  then Returned (sort_by (fun x => default EmptyString (key x)) l)
  else if (length l <=? 1)%nat then Returned l
  else Raised TypeError.

End Py.

(** ** The catalog *)

(** The assignments [self._languages[code] = _(title)] of [__init__],
    in source order, before translation. *)
Definition catalog_entries : list (string * string) :=
  [
    ("afr", "Afrikaans");
    ("amh", "Amharic");
    ("ara", "Arabic");
    ("asm", "Assamese");
    ("aze", "Azerbaijani");
    ("aze_cyrl", "Azerbaijani - Cyrilic");
    ("bel", "Belarusian");
    ("ben", "Bengali");
    ("bod", "Tibetan");
    ("bos", "Bosnian");
    ("bre", "Breton");
    ("bul", "Bulgarian");
    ("cat", "Catalan; Valencian");
    ("ceb", "Cebuano");
    ("ces", "Czech");
    ("chi_sim", "Chinese - Simplified");
    ("chi_tra", "Chinese - Traditional");
    ("chr", "Cherokee");
    ("cos", "Corsican");
    ("cym", "Welsh");
    ("dan", "Danish");
    ("deu", "German");
    ("dzo", "Dzongkha");
    ("ell", "Greek, Modern (1453-)");
    ("eng", "English");
    ("enm", "English, Middle (1100-1500)");
    ("epo", "Esperanto");
    ("equ", "Math / equation detection module");
    ("est", "Estonian");
    ("eus", "Basque");
    ("fao", "Faroese");
    ("fas", "Persian");
    ("fil", "Filipino (old - Tagalog)");
    ("fin", "Finnish");
    ("fra", "French");
    ("frk", "German - Fraktur");
    ("frm", "French, Middle (ca.1400-1600)");
    ("fry", "Western Frisian");
    ("gla", "Scottish Gaelic");
    ("gle", "Irish");
    ("glg", "Galician");
    ("grc", "Greek, Ancient (to 1453) (contrib)");
    ("guj", "Gujarati");
    ("hat", "Haitian; Haitian Creole");
    ("heb", "Hebrew");
    ("hin", "Hindi");
    ("hrv", "Croatian");
    ("hun", "Hungarian");
    ("hye", "Armenian");
    ("iku", "Inuktitut");
    ("ind", "Indonesian");
    ("isl", "Icelandic");
    ("ita", "Italian");
    ("ita_old", "Italian - Old");
    ("jav", "Javanese");
    ("jpn", "Japanese");
    ("jpn_vert", "Japanese (vertical)");
    ("kan", "Kannada");
    ("kat", "Georgian");
    ("kat_old", "Georgian - Old");
    ("kaz", "Kazakh");
    ("khm", "Central Khmer");
    ("kir", "Kirghiz; Kyrgyz");
    ("kmr", "Kurmanji (Kurdish - Latin Script)");
    ("kor", "Korean");
    ("kor_vert", "Korean (vertical)");
    ("lao", "Lao");
    ("lat", "Latin");
    ("lav", "Latvian");
    ("lit", "Lithuanian");
    ("ltz", "Luxembourgish");
    ("mal", "Malayalam");
    ("mar", "Marathi");
    ("mkd", "Macedonian");
    ("mlt", "Maltese");
    ("mon", "Mongolian");
    ("mri", "Maori");
    ("msa", "Malay");
    ("mya", "Burmese");
    ("nep", "Nepali");
    ("nld", "Dutch; Flemish");
    ("nor", "Norwegian");
    ("oci", "Occitan (post 1500)");
    ("ori", "Oriya");
    ("osd", "Orientation and script detection module");
    ("pan", "Panjabi; Punjabi");
    ("pol", "Polish");
    ("por", "Portuguese");
    ("pus", "Pushto; Pashto");
    ("que", "Quechua");
    ("ron", "Romanian; Moldavian; Moldovan");
    ("rus", "Russian");
    ("san", "Sanskrit");
    ("sin", "Sinhala; Sinhalese");
    ("slk", "Slovak");
    ("slv", "Slovenian");
    ("snd", "Sindhi");
    ("spa", "Spanish; Castilian");
    ("spa_old", "Spanish; Castilian - Old");
    ("sqi", "Albanian");
    ("srp", "Serbian");
    ("srp_latn", "Serbian - Latin");
    ("sun", "Sundanese");
    ("swa", "Swahili");
    ("swe", "Swedish");
    ("syr", "Syriac");
    ("tam", "Tamil");
    ("tat", "Tatar");
    ("tel", "Telugu");
    ("tgk", "Tajik");
    ("tha", "Thai");
    ("tir", "Tigrinya");
    ("ton", "Tonga");
    ("tur", "Turkish");
    ("uig", "Uighur; Uyghur");
    ("ukr", "Ukrainian");
    ("urd", "Urdu");
    ("uzb", "Uzbek");
    ("uzb_cyrl", "Uzbek - Cyrilic");
    ("vie", "Vietnamese");
    ("yid", "Yiddish");
    ("yor", "Yoruba")
  ].

(** ** Signals and the outside world *)

(** The progress argument of a ['downloading'] emission: the float
    literal [0.1] that [download] passes, or the integer that
    [update_progress] computes. *)
Inductive progress_value : Type :=
| Tenth
| Percent (p : Z).

(** The signals of [__gsignals__] with their arguments.  ['downloaded']
    carries whatever [download_begin] returned, which may be [None]. *)
Inductive signal : Type :=
| Added (code : string)
| Downloading (code : string) (progress : progress_value)
| Downloaded (code : option string)
| Removed (code : string).

(** One [fp.read(bs)] of an open response: a block of data, or a failure
    of the connection.  After the last entry every read returns the
    empty block (end of data). *)
Inductive read_result : Type :=
| Block (data : string)
| ReadFails.

(** An opened HTTP response: the [Content-Length] header, if any, and
    what the successive reads return. *)
Record reply : Type := {
  content_length : option Z;
  reads : list read_result
}.

(** ** Directories and files, for [init_tessdata] *)

Module Disk.

(** The errors of [os.mkdir] and [shutil.copyfile]. *)
Inductive exn : Type :=
| FileExistsError
| FileNotFoundError
| IsADirectoryError
| NotADirectoryError
| SameFileError.

Inductive outcome (A : Type) : Type :=
| Returned (a : A)
| Raised (e : exn).
Arguments Returned {A} a.
Arguments Raised {A} e.

(** The directories that exist and the content of every plain file.  A
    path whose parent directory is missing altogether and permissions
    are not modelled. *)
Record disk : Type := {
  directories : gset string;
  contents : gmap string string
}.

(** What precedes each separator of a path, the root aside: the
    directories that lead to the path. *)
Fixpoint ancestors_from (prefix rest : string) : list string :=
  match rest with
  | EmptyString => []
  | String c rest' =>
      (if decide (c = "/"%char)
       then match prefix with EmptyString => [] | _ => [prefix] end
       else [])
      ++ ancestors_from (prefix +:+ String c EmptyString) rest'
  end.

Definition ancestors (path : string) : list string := ancestors_from "" path.

(** Does the path lead through a plain file?  Every system call on such
    a path fails with [ENOTDIR]. *)
Definition below_plain_file (path : string) (d : disk) : bool :=
  existsb (fun p => bool_decide (is_Some (contents d !! p))) (ancestors path).

(** [os.path.exists(path)] *)
Definition os_path_exists (path : string) (d : disk) : bool :=
  bool_decide (path ∈ directories d) || bool_decide (is_Some (contents d !! path)).

(** [os.mkdir(path)] *)
Definition os_mkdir (path : string) (d : disk) : disk * outcome unit :=
  if below_plain_file path d then (d, Raised NotADirectoryError)
  else if os_path_exists path d then (d, Raised FileExistsError)
  else ({| directories := {[ path ]} ∪ directories d; contents := contents d |},
        Returned tt).

(** [shutil.copyfile(src, dst)]: the source is opened for reading, then
    the destination for writing, and the content is copied. *)
Definition copyfile (src dst : string) (d : disk) : disk * outcome unit :=
  if bool_decide (src = dst) && os_path_exists src d then (d, Raised SameFileError)
  else if below_plain_file src d then (d, Raised NotADirectoryError)
  else
    match contents d !! src with
    | None =>
        if bool_decide (src ∈ directories d) then (d, Raised IsADirectoryError)
        else (d, Raised FileNotFoundError)
    | Some data =>
        if below_plain_file dst d then (d, Raised NotADirectoryError)
        else if bool_decide (dst ∈ directories d) then (d, Raised IsADirectoryError)
        else ({| directories := directories d; contents := <[dst := data]> (contents d) |},
              Returned tt)
    end.

End Disk.

(** ** Directory listings *)

(** The name under which [dir] holds [path]: the first component of
    what follows the directory in [path], when [path] lies below
    [dir].  A file right in [dir] is held under its own name, anything
    deeper under the name of a subdirectory of [dir]. *)
Definition entry_under (dir path : string) : option string :=
  match Py.strip_prefix (Py.os_path_join dir "") path with
  | Some rest =>
      match Py.before_char "/" rest with
      | EmptyString => None
      | name => Some name
      end
  | None => None
  end.

(** The names that the files [fs] put into [dir], each once: plain
    files of [dir] and subdirectories of [dir] that hold a file. *)
Definition listdir_names (dir : string) (fs : gmap string string) : list string :=
  remove_dups (omap (entry_under dir) (map_to_list fs).*1).

(** ** The manager *)

Section LanguageManager.

(** The constants of [frog.config]. *)
Context (tessdata_dir tessdata_url tessdata_best_url : string).

(** The translation function [_] of [gettext]. *)
Context (gettext : string -> string).

(** The class [frog.types.download_state.DownloadState] and its
    constructor call [DownloadState()]. *)
Context (DownloadState : Type) (DownloadState_new : DownloadState).

(** The network: what opening a URL yields on the [n]-th request of the
    run ([None] when [urlopen] raises). *)
Context (network : nat -> string -> option reply).

(** The attributes of the manager object, followed by the part of the
    outside world that its methods act on. *)
Record state : Type := {
  loading_languages : gmap string DownloadState;
  _downloaded_codes : list string;
  _need_update_cache : bool;
  (** the file system: the content stored at each path *)
  files : gmap string string;
  (** the directories known to exist besides those that hold a file *)
  directories : gset string;
  (** the signals emitted so far, oldest first *)
  emitted : list signal;
  (** the [urlretrieve] calls made so far as (url, filename), oldest first *)
  requests : list (string * string);
  (** the codes whose download was handed to the background worker *)
  dispatched : list string
}.

Definition set_loading_languages (f : gmap string DownloadState -> gmap string DownloadState)
    (s : state) : state :=
  {| loading_languages := f (loading_languages s);
     _downloaded_codes := _downloaded_codes s;
     _need_update_cache := _need_update_cache s;
     files := files s; directories := directories s; emitted := emitted s;
     requests := requests s; dispatched := dispatched s |}.

Definition set_downloaded_codes (l : list string) (s : state) : state :=
  {| loading_languages := loading_languages s;
     _downloaded_codes := l;
     _need_update_cache := _need_update_cache s;
     files := files s; directories := directories s; emitted := emitted s;
     requests := requests s; dispatched := dispatched s |}.

Definition set_need_update_cache (b : bool) (s : state) : state :=
  {| loading_languages := loading_languages s;
     _downloaded_codes := _downloaded_codes s;
     _need_update_cache := b;
     files := files s; directories := directories s; emitted := emitted s;
     requests := requests s; dispatched := dispatched s |}.

Definition set_files (f : gmap string string -> gmap string string) (s : state) : state :=
  {| loading_languages := loading_languages s;
     _downloaded_codes := _downloaded_codes s;
     _need_update_cache := _need_update_cache s;
     files := f (files s); directories := directories s; emitted := emitted s;
     requests := requests s; dispatched := dispatched s |}.

Definition set_directories (f : gset string -> gset string) (s : state) : state :=
  {| loading_languages := loading_languages s;
     _downloaded_codes := _downloaded_codes s;
     _need_update_cache := _need_update_cache s;
     files := files s; directories := f (directories s); emitted := emitted s;
     requests := requests s; dispatched := dispatched s |}.

Definition set_emitted (f : list signal -> list signal) (s : state) : state :=
  {| loading_languages := loading_languages s;
     _downloaded_codes := _downloaded_codes s;
     _need_update_cache := _need_update_cache s;
     files := files s; directories := directories s; emitted := f (emitted s);
     requests := requests s; dispatched := dispatched s |}.

Definition set_requests (f : list (string * string) -> list (string * string))
    (s : state) : state :=
  {| loading_languages := loading_languages s;
     _downloaded_codes := _downloaded_codes s;
     _need_update_cache := _need_update_cache s;
     files := files s; directories := directories s; emitted := emitted s;
     requests := f (requests s); dispatched := dispatched s |}.

Definition set_dispatched (f : list string -> list string) (s : state) : state :=
  {| loading_languages := loading_languages s;
     _downloaded_codes := _downloaded_codes s;
     _need_update_cache := _need_update_cache s;
     files := files s; directories := directories s; emitted := emitted s;
     requests := requests s; dispatched := f (dispatched s) |}.

(** The object as [__init__] leaves it, in a world that holds the
    files [fs] in the directories that lead to them, and in which
    nothing was emitted, requested or dispatched yet. *)
Definition init (fs : gmap string string) : state :=
  {| loading_languages := ∅;
     _downloaded_codes := [];
     _need_update_cache := true;
     files := fs; directories := ∅; emitted := []; requests := []; dispatched := [] |}.

(** *** The state-and-outcome monad *)

Definition M (A : Type) : Type := state -> state * Py.outcome A.

Definition ret {A} (a : A) : M A := fun s => (s, Py.Returned a).

Definition bind {A B} (m : M A) (k : A -> M B) : M B :=
  fun s =>
    match m s with
    | (s', Py.Returned a) => k a s'
    | (s', Py.Raised e) => (s', Py.Raised e)
    end.

Definition raise {A} (e : Py.exn) : M A := fun s => (s, Py.Raised e).

(** [try: m  except Exception as e: h e] *)
Definition try_except {A} (m : M A) (h : Py.exn -> M A) : M A :=
  fun s =>
    match m s with
    | (s', Py.Returned a) => (s', Py.Returned a)
    | (s', Py.Raised e) => h e s'
    end.

Definition lift {A} (o : Py.outcome A) : M A := fun s => (s, o).

Definition get : M state := fun s => (s, Py.Returned s).

Definition modify (f : state -> state) : M unit := fun s => (f s, Py.Returned tt).

#[local] Instance M_ret : MRet M := @ret.
#[local] Instance M_bind : MBind M := fun A B k m => bind m k.

(** *** The catalog as built by [__init__] *)

Definition _languages : Py.dict string :=
  foldl (fun d '(code, title) => Py.dict_setitem code (gettext title) d) [] catalog_entries.

(** *** Collaborators: signals, files, HTTP, the worker *)

(** [self.emit(...)]: the emission is recorded. *)
Definition emit (sig : signal) : M unit :=
  modify (set_emitted (fun l => l ++ [sig])).

(** The names that [dir] holds, each once, in the order the file
    system yields them: its plain files and its subdirectories. *)
Definition listing (dir : string) (s : state) : list string :=
  remove_dups (listdir_names dir (files s)
               ++ omap (entry_under dir) (elements (directories s))).

(** A directory exists when it is known to, under either spelling of
    its path, or when it holds something. *)
Definition directory_exists (dir : string) (s : state) : bool :=
  bool_decide (Py.os_path_join dir ""
               ∈ (fun d => Py.os_path_join d "") <$> elements (directories s))
  || negb (bool_decide (listing dir s = [])).

(** Is the path of [dir], under either spelling, that of a plain
    file? *)
Definition plain_file_at (dir : string) (s : state) : bool :=
  bool_decide (Py.os_path_join dir ""
               ∈ (fun p => Py.os_path_join p "") <$> (map_to_list (files s)).*1).

(** What listing a directory that does not exist raises. *)
Definition missing_directory_error (dir : string) (s : state) : Py.exn :=
  if plain_file_at dir s then Py.NotADirectoryError else Py.FileNotFoundError.

(** [os.listdir(dir)]: a directory that does not exist raises. *)
Definition os_listdir (dir : string) : M (list string) :=
  s ← get;
  if directory_exists dir s then mret (listing dir s)
  else raise (missing_directory_error dir s).

(** [os.remove(path)]: the file goes and the directory that held it
    stays, empty or not. *)
Definition os_remove (path : string) : M unit :=
  s ← get;
  match files s !! path with
  | Some _ =>
      modify (set_files (delete path));;
      modify (set_directories (union {[ Py.directory_prefix path ]}))
  | None => raise Py.FileNotFoundError
  end.

(** [open(filename, 'wb')]: the file is created or truncated. *)
Definition open_wb (filename : string) : M unit :=
  modify (set_files (insert filename "")).

(** [tfp.write(block)]. *)
Definition write_block (filename data : string) : M unit :=
  modify (set_files (fun fs => <[filename := default "" (fs !! filename) +:+ data]> fs)).

Definition call_hook (reporthook : option (Z -> Z -> Z -> M unit))
    (blocknum bs size : Z) : M unit :=
  match reporthook with
  | Some hook => hook blocknum bs size
  | None => mret tt
  end.

(** The copy loop of [urlretrieve]:
    [while block := fp.read(bs): read += len(block); tfp.write(block);
     blocknum += 1; if reporthook: reporthook(blocknum, bs, size)].
    It returns the number of bytes read. *)
Fixpoint copy_blocks (rs : list read_result) (filename : string)
    (reporthook : option (Z -> Z -> Z -> M unit)) (bs size read blocknum : Z) : M Z :=
  match rs with
  | [] => mret read
  | ReadFails :: _ => raise Py.ConnectionError
  | Block "" :: _ => mret read
  | Block data :: rest =>
      write_block filename data;;
      call_hook reporthook (blocknum + 1) bs size;;
      copy_blocks rest filename reporthook bs size
        (read + Z.of_nat (String.length data)) (blocknum + 1)
  end.

(** The body of [urlretrieve] once the response [r] is open: the file
    is opened for writing, the hook is called once before the first
    block and once after each block, and a transfer shorter than the
    announced length raises. *)
Definition retrieve_response (r : reply) (filename : string)
    (reporthook : option (Z -> Z -> Z -> M unit)) : M unit :=
  open_wb filename;;
  let bs := 8192 in
  let size := default (-1) (content_length r) in
  call_hook reporthook 0 bs size;;
  read ← copy_blocks (reads r) filename reporthook bs size 0 0;
  if (0 <=? size) && (read <? size) then raise Py.ContentTooShortError
  else mret tt.

(** [urllib.request.urlretrieve(url, filename, reporthook)]: one request. *)
Definition urlretrieve (url filename : string)
    (reporthook : option (Z -> Z -> Z -> M unit)) : M unit :=
  s ← get;
  modify (set_requests (fun l => l ++ [(url, filename)]));;
  match network (length (requests s)) url with
  | None => raise Py.URLError
  | Some r => retrieve_response r filename reporthook
  end.

(** Modelled from the spec: [GObjectWorker.call], the worker-dispatch
    primitive that runs a callable off the main thread and marshals its
    result back.  The call itself only hands the job over. *)
Definition GObjectWorker_call (code : string) : M unit :=
  modify (set_dispatched (fun l => l ++ [code])).

(** *** The methods of [LanguageManager] *)

Definition get_language (code : string) : option string :=
  Py.dict_get code _languages.

Definition get_available_codes : Py.outcome (list string) :=
  Py.sorted get_language (Py.dict_keys _languages).

(** The loop [for code, lang in self._languages.items()] from a given
    position; falling off the end returns [None]. *)
Fixpoint get_language_code_from (items : Py.dict string) (language : option string)
    : option string :=
  match items with
  | [] => None
  | (code, lang) :: rest =>
      if decide (Some lang = language) then Some code
      else get_language_code_from rest language
  end.

Definition get_language_code (language : option string) : option string :=
  get_language_code_from _languages language.

(** The membership test [code not in self._languages] of the loop. *)
Definition recognized (code : string) : Prop :=
  Is_true (Py.dict_contains code _languages).

(** [os.path.splitext(lang_file)[0]] *)
Definition stem (lang_file : string) : string := fst (Py.os_path_splitext lang_file).

Definition get_downloaded_codes (force : bool) : M (list string) :=
  s ← get;
  (if _need_update_cache s || force then
     names ← os_listdir tessdata_dir;
     modify (set_downloaded_codes (stem <$> names));;
     modify (set_need_update_cache false)
   else mret tt);;
  s ← get;
  let recognized_codes :=
    filter recognized (_downloaded_codes s) in
  lift (Py.sorted get_language recognized_codes).

Definition download (code : string) : M unit :=
  emit (Added code);;
  modify (set_loading_languages (insert code DownloadState_new));;
  emit (Downloading code Tenth);;
  GObjectWorker_call code.

Definition update_progress (code : string) (block_num block_size total_size : Z) : M unit :=
  progress ← lift (Py.int_truediv (block_num * block_size * 100) total_size);
  emit (Downloading code (Percent progress)).

Definition download_begin (code : string) : M (option string) :=
  let tessfile := code +:+ ".traineddata" in
  let tessfile_path := Py.os_path_join tessdata_dir tessfile in
  try_except
    (urlretrieve (tessdata_best_url +:+ tessfile) tessfile_path (Some (update_progress code));;
     mret (Some code))
    (fun e =>
       try_except
         (urlretrieve (tessdata_url +:+ tessfile) tessfile_path None;;
          mret (Some code))
         (fun e2 => mret None)).

(** [self.loading_languages.pop(code)]: a missing key raises. *)
Definition loading_languages_pop (code : string) : M unit :=
  s ← get;
  match loading_languages s !! code with
  | Some _ => modify (set_loading_languages (delete code))
  | None => raise Py.KeyError
  end.

Definition download_done (code : option string) : M unit :=
  modify (set_need_update_cache true);;
  (if Py.truthy code then loading_languages_pop (default "" code) else mret tt);;
  emit (Downloaded code).

Definition remove_language (code : string) : M unit :=
  os_remove (Py.os_path_join tessdata_dir (code +:+ ".traineddata"));;
  modify (set_need_update_cache true);;
  emit (Removed code).

(** The background job that [download] dispatches: [download_begin]
    runs and its result is passed to [download_done]. *)
Definition run_job (code : string) : M unit :=
  result ← download_begin code;
  download_done result.

(** The calls made on the manager, the completion of a background job
    among them. *)
Inductive call : Type :=
| GetDownloadedCodes (force : bool)
| Download (code : string)
| RemoveLanguage (code : string)
| Job (code : string).

Definition perform (c : call) : M unit :=
  match c with
  | GetDownloadedCodes force => get_downloaded_codes force;; mret tt
  | Download code => download code
  | RemoveLanguage code => remove_language code
  | Job code => run_job code
  end.

(** A sequence of calls, each starting from the state that the previous
    one left, whether it returned or raised. *)
Definition perform_all (calls : list call) (s : state) : state :=
  foldl (fun s c => (perform c s).1) s calls.

(** *** The remaining methods *)

(** [init_tessdata], a static method: it acts on the disk alone. *)
Definition init_tessdata (d : Disk.disk) : Disk.disk * Disk.outcome unit :=
  let '(d1, made) :=
    if negb (Disk.os_path_exists tessdata_dir d) then Disk.os_mkdir tessdata_dir d
    else (d, Disk.Returned tt) in
  match made with
  | Disk.Raised e => (d1, Disk.Raised e)
  | Disk.Returned _ =>
      let dest_path := Py.os_path_join tessdata_dir "eng.traineddata" in
      let source_path := "/app/share/appdata/eng.traineddata" in
      if Disk.os_path_exists dest_path d1 then (d1, Disk.Returned tt)
      else Disk.copyfile source_path dest_path d1
  end.

(** [sorted(self._languages.values())] *)
Definition get_available_languages : Py.outcome (list string) :=
  Py.sorted (fun title => Some title) (Py.dict_values _languages).

(** [sorted({self.get_language(code) for code in
    self.get_downloaded_codes(force)})]: the titles are collected in a
    set, whose elements are then sorted. *)
Definition get_downloaded_languages (force : bool) : M (list (option string)) :=
  codes ← get_downloaded_codes force;
  lift (Py.sorted (fun title => title)
          (elements (list_to_set (get_language <$> codes) : gset (option string)))).

(** ** Notions used in the statements *)

(** The order that [sorted] establishes on the keys. *)
Definition key_le {A} (key : A -> string) (x y : A) : Prop :=
  String.leb (key x) (key y) = true.

(** [preserves proj m]: running [m] never changes the part [proj] of
    the state, whether it returns or raises. *)
Definition preserves {A B} (proj : state -> B) (m : M A) : Prop :=
  forall s, proj (m s).1 = proj s.

(** A value outside the range of a percentage. *)
Definition out_of_range (p : Z) : Prop := p < 0 \/ 100 < p.

(** The entry that one assignment of [__init__] stores. *)
Definition translated (entry : string * string) : string * string :=
  (entry.1, gettext entry.2).

(** The order of the display names, read through [get_language]. *)
Definition title_le (a b : string) : Prop :=
  exists ta tb,
    get_language a = Some ta /\ get_language b = Some tb /\ String.leb ta tb = true.

(** The codes that a call of [get_downloaded_codes] works from: the
    stems of a fresh listing when the cache is invalid or [force] is
    set, the cached codes otherwise. *)
Definition listed_codes (force : bool) (s : state) : list string :=
  if _need_update_cache s || force
  then stem <$> listing tessdata_dir s
  else _downloaded_codes s.

(** Does a call of [get_downloaded_codes] list a data directory that
    does not exist? *)
Definition lists_missing_directory (force : bool) (s : state) : bool :=
  (_need_update_cache s || force) && negb (directory_exists tessdata_dir s).

(** A call that returned the stem of every listed file would satisfy
    this. *)
Definition returns_all_stems (force : bool) (s : state) : Prop :=
  exists codes s',
    get_downloaded_codes force s = (s', Py.Returned codes) /\
    codes ≡ₚ stem <$> listing tessdata_dir s.

(** The order of Python on strings. *)
Definition str_le (a b : string) : Prop := String.leb a b = true.

(** The data of a sequence of blocks, and its length in bytes. *)
Definition joined (blocks : list string) : string := foldr String.append "" blocks.

Definition total_length (blocks : list string) : Z :=
  foldr (fun block n => Z.of_nat (String.length block) + n) 0 blocks.

(** The ['downloading'] signals that the hook of [download_begin] emits
    for the block numbers [first + 1], ..., [first + n] of a transfer
    that announced [size] bytes; none when there is no hook. *)
Definition progress_signals (hook_code : option string) (size first : Z) (n : nat)
    : list signal :=
  match hook_code with
  | Some code =>
      (fun i : nat =>
         Downloading code (Percent (Py.int_quotient ((first + Z.of_nat i) * 8192 * 100) size)))
        <$> seq 1 n
  | None => []
  end.

(** The state in which [filename] holds [data] and [signals] were
    emitted on top of those of [s]. *)
Definition received (filename data : string) (signals : list signal) (s : state) : state :=
  set_emitted (fun l => l ++ signals) (set_files (insert filename data) s).

(** A ['downloading'] signal of [code] that carries a computed
    percentage. *)
Definition is_progress_of (code : string) (sig : signal) : Prop :=
  exists p, sig = Downloading code (Percent p).

(** [emits_only P m]: whatever [m] emits is appended to the signals
    emitted before and satisfies [P]. *)
Definition emits_only {A} (P : signal -> Prop) (m : M A) : Prop :=
  forall s, exists l, emitted (m s).1 = emitted s ++ l /\ Forall P l.
(** * Facts about the Python primitives *)

Lemma leb_refl (a : string) : String.leb a a = true.
Proof.
  pose proof (reflexivity a : String.le a a) as H.
  unfold String.le in H. by apply Is_true_true.
Qed.

Lemma leb_trans (a b c : string) :
  String.leb a b = true -> String.leb b c = true -> String.leb a c = true.
Proof.
  intros Hab Hbc. apply Is_true_true.
  apply (transitivity (R := String.le) (y := b)); unfold String.le; by apply Is_true_true.
Qed.

Lemma leb_false_flip (a b : string) : String.leb a b = false -> String.leb b a = true.
Proof. intros H. destruct (String.leb_total a b) as [H'|H']; congruence. Qed.

Lemma insert_by_perm {A} (key : A -> string) (x : A) (l : list A) :
  Py.insert_by key x l ≡ₚ x :: l.
Proof.
  induction l as [|y l IH]; simpl; [done|].
  destruct (String.leb (key x) (key y)); [done|].
  rewrite IH. apply Permutation_swap.
Qed.

Lemma sort_by_perm {A} (key : A -> string) (l : list A) : Py.sort_by key l ≡ₚ l.
Proof.
  induction l as [|x l IH]; simpl; [done|].
  by rewrite insert_by_perm, IH.
Qed.

Lemma insert_by_sorted {A} (key : A -> string) (x : A) (l : list A) :
  StronglySorted (key_le key) l -> StronglySorted (key_le key) (Py.insert_by key x l).
Proof.
  induction l as [|y l IH]; simpl; intros Hs.
  - repeat constructor.
  - apply StronglySorted_inv in Hs as [Hl Hy].
    destruct (String.leb (key x) (key y)) eqn:Hxy.
    + constructor; [by constructor|].
      constructor; [exact Hxy|].
      eapply Forall_impl; [exact Hy|].
      intros z Hz. unfold key_le in *. by eapply leb_trans.
    + constructor; [by apply IH|].
      rewrite insert_by_perm. constructor; [|done].
      by apply leb_false_flip.
Qed.

Lemma sort_by_sorted {A} (key : A -> string) (l : list A) :
  StronglySorted (key_le key) (Py.sort_by key l).
Proof.
  induction l as [|x l IH]; simpl; [constructor|].
  by apply insert_by_sorted.
Qed.

(** Stability: the elements that share a key come out in the order
    they went in. *)
Lemma insert_by_stable {A} (key : A -> string) (k : string) (x : A) (l : list A) :
  filter (fun y => key y = k) (Py.insert_by key x l)
  = filter (fun y => key y = k) (x :: l).
Proof.
  induction l as [|y l IH]; simpl; [done|].
  destruct (String.leb (key x) (key y)) eqn:Hxy; [done|].
  rewrite (filter_cons _ y), IH, !(filter_cons _ x), (filter_cons _ y).
  destruct (decide (key x = k)) as [Hx|Hx]; [|done].
  destruct (decide (key y = k)) as [Hy|Hy]; [|done].
  rewrite Hx, Hy, leb_refl in Hxy. discriminate.
Qed.

Lemma sort_by_stable {A} (key : A -> string) (k : string) (l : list A) :
  filter (fun y => key y = k) (Py.sort_by key l) = filter (fun y => key y = k) l.
Proof.
  induction l as [|x l IH]; simpl; [done|].
  by rewrite insert_by_stable, !(filter_cons _ x), IH.
Qed.

(** [sorted] returns, without raising, when every key is a string. *)
Lemma sorted_returns {A} (key : A -> option string) (l : list A) :
  (forall x, x ∈ l -> is_Some (key x)) ->
  Py.sorted key l = Py.Returned (Py.sort_by (fun x => default EmptyString (key x)) l).
Proof.
  intros Hk. unfold Py.sorted.
  replace (forallb _ l) with true; [done|].
  symmetry. apply Is_true_true, forallb_True, Forall_forall.
  intros x Hx. apply bool_decide_pack. by apply Hk.
Qed.

(** *** Dictionaries *)

Lemma dict_setitem_fresh {V} (k : string) (v : V) (d : Py.dict V) :
  k ∉ Py.dict_keys d -> Py.dict_setitem k v d = d ++ [(k, v)].
Proof.
  unfold Py.dict_keys. induction d as [|[k' v'] d IH]; simpl; intros Hk; [done|].
  rewrite not_elem_of_cons in Hk. destruct Hk as [Hne Hk].
  destruct (decide (k' = k)); [congruence|]. by rewrite IH.
Qed.

Lemma dict_get_elem_of {V} (k : string) (v : V) (d : Py.dict V) :
  Py.dict_get k d = Some v -> (k, v) ∈ d.
Proof.
  induction d as [|[k' v'] d IH]; simpl; [done|].
  destruct (decide (k' = k)) as [->|]; intros H.
  - injection H as ->. apply elem_of_cons. by left.
  - apply elem_of_cons. right. by apply IH.
Qed.

Lemma dict_get_lookup {V} (k : string) (v : V) (d : Py.dict V) :
  NoDup (Py.dict_keys d) -> (k, v) ∈ d -> Py.dict_get k d = Some v.
Proof.
  unfold Py.dict_keys.
  induction d as [|[k' v'] d IH]; simpl; intros Hnd Hin; [by apply elem_of_nil in Hin|].
  apply NoDup_cons in Hnd as [Hk' Hnd].
  apply elem_of_cons in Hin as [Heq|Hin].
  - injection Heq as -> ->. by destruct (decide (k' = k')).
  - destruct (decide (k' = k)) as [->|]; [|by apply IH].
    exfalso. apply Hk'. apply list_elem_of_fmap. by exists (k, v).
Qed.

Lemma dict_contains_keys {V} (k : string) (d : Py.dict V) :
  Py.dict_contains k d = true <-> k ∈ Py.dict_keys d.
Proof.
  unfold Py.dict_contains, Py.dict_keys.
  induction d as [|[k' v'] d IH]; simpl.
  - split; [done|]. intros H. by apply elem_of_nil in H.
  - rewrite elem_of_cons. destruct (decide (k' = k)) as [->|Hne]; simpl.
    + split; [by left|done].
    + rewrite IH. split; [by right|]. intros [?|?]; [congruence|done].
Qed.

Lemma dict_keys_get {V} (k : string) (d : Py.dict V) :
  k ∈ Py.dict_keys d -> is_Some (Py.dict_get k d).
Proof.
  intros H. apply dict_contains_keys in H. unfold Py.dict_contains in H.
  destruct (Py.dict_get k d); [by eexists|done].
Qed.

(** Two keys of a dictionary whose values are pairwise distinct never
    share a value. *)
Lemma dict_values_inj {V} (k1 k2 : string) (v : V) (d : Py.dict V) :
  NoDup (Py.dict_values d) -> (k1, v) ∈ d -> (k2, v) ∈ d -> k1 = k2.
Proof.
  unfold Py.dict_values.
  induction d as [|[k' v'] d IH]; simpl; intros Hnd H1 H2; [by apply elem_of_nil in H1|].
  apply NoDup_cons in Hnd as [Hv' Hnd].
  apply elem_of_cons in H1 as [H1|H1]; apply elem_of_cons in H2 as [H2|H2].
  - congruence.
  - injection H1 as -> ->. exfalso. apply Hv'. apply list_elem_of_fmap. by exists (k2, v').
  - injection H2 as -> ->. exfalso. apply Hv'. apply list_elem_of_fmap. by exists (k1, v').
  - by apply IH.
Qed.

(** ** The quotient of two integers as a float *)

Lemma pow2_num_pos k : 0 < Py.pow2_num k.
Proof. unfold Py.pow2_num. apply Z.pow_pos_nonneg; lia. Qed.

Lemma pow2_den_pos k : 0 < Py.pow2_den k.
Proof. unfold Py.pow2_den. apply Z.pow_pos_nonneg; lia. Qed.

Lemma pow2_shift k j :
  0 <= j -> Py.pow2_num (k + j) * Py.pow2_den k = 2 ^ j * Py.pow2_num k * Py.pow2_den (k + j).
Proof.
  intros Hj. unfold Py.pow2_num, Py.pow2_den.
  rewrite <- !Z.pow_add_r by lia. f_equal. lia.
Qed.

Lemma pow2_ge_1 j : 0 <= j -> 1 <= 2 ^ j.
Proof. intros Hj. pose proof (Z.pow_pos_nonneg 2 j). lia. Qed.

Lemma ge_pow2_mono n d k k' :
  0 < d -> k' <= k -> Py.ge_pow2 n d k -> Py.ge_pow2 n d k'.
Proof.
  unfold Py.ge_pow2. intros Hd Hk H.
  pose proof (pow2_shift k' (k - k') ltac:(lia)) as Hs.
  replace (k' + (k - k')) with k in Hs by lia.
  pose proof (pow2_ge_1 (k - k') ltac:(lia)) as Hp.
  pose proof (pow2_num_pos k) as ?. pose proof (pow2_den_pos k) as ?.
  pose proof (pow2_num_pos k') as ?. pose proof (pow2_den_pos k') as ?.
  set (A := Py.pow2_num k) in *. set (B := Py.pow2_den k) in *.
  set (A' := Py.pow2_num k') in *. set (B' := Py.pow2_den k') in *.
  set (P := 2 ^ (k - k')) in *.
  apply (Z.mul_le_mono_pos_r _ _ B); [lia|].
  assert (d * A * B' <= n * B * B') as Hx1 by (apply Z.mul_le_mono_nonneg_r; lia).
  assert (d * A' * B <= d * A' * B * P) as Hx2 by nia.
  assert (d * A * B' = d * A' * B * P) as Hx3
    by (replace (d * A * B') with (d * (A * B')) by ring; rewrite Hs; ring).
  lia.
Qed.

Lemma lt_pow2_mono n d k k' :
  0 < d -> 0 <= n -> k <= k' -> Py.lt_pow2 n d k -> Py.lt_pow2 n d k'.
Proof.
  unfold Py.lt_pow2. intros Hd Hn Hk H.
  pose proof (pow2_shift k (k' - k) ltac:(lia)) as Hs.
  replace (k + (k' - k)) with k' in Hs by lia.
  pose proof (pow2_ge_1 (k' - k) ltac:(lia)) as Hp.
  pose proof (pow2_num_pos k) as ?. pose proof (pow2_den_pos k) as ?.
  pose proof (pow2_num_pos k') as ?. pose proof (pow2_den_pos k') as ?.
  set (A := Py.pow2_num k) in *. set (B := Py.pow2_den k) in *.
  set (A' := Py.pow2_num k') in *. set (B' := Py.pow2_den k') in *.
  set (P := 2 ^ (k' - k)) in *.
  apply (Z.mul_lt_mono_pos_r B); [lia|].
  assert (n * B * B' < d * A * B') as Hx1 by (apply Z.mul_lt_mono_pos_r; lia).
  assert (d * A * B' <= d * A * B' * P) as Hx2 by nia.
  assert (d * A' * B = d * A * B' * P) as Hx3
    by (replace (d * A' * B) with (d * (A' * B)) by ring; rewrite Hs; ring).
  lia.
Qed.

Lemma ge_lt_pow2 n d k k' :
  0 < d -> 0 <= n -> Py.ge_pow2 n d k -> Py.lt_pow2 n d k' -> k < k'.
Proof.
  intros Hd Hn Hge Hlt. destruct (Z.lt_ge_cases k k') as [|Hle]; [done|].
  apply (ge_pow2_mono n d k k') in Hge; [|done..].
  unfold Py.ge_pow2, Py.lt_pow2 in *. lia.
Qed.

Lemma pow2_quotient a b :
  0 <= a -> 0 <= b -> Py.pow2_num (a - b) * 2 ^ b = Py.pow2_den (a - b) * 2 ^ a.
Proof.
  intros Ha Hb. unfold Py.pow2_num, Py.pow2_den. rewrite <- !Z.pow_add_r by lia. f_equal. lia.
Qed.

Lemma log2_quotient_spec n d :
  0 < n -> 0 < d ->
  Py.ge_pow2 n d (Py.log2_quotient n d) /\ Py.lt_pow2 n d (Py.log2_quotient n d + 1).
Proof.
  intros Hn Hd.
  destruct (Z.log2_spec n Hn) as [Hn1 Hn2], (Z.log2_spec d Hd) as [Hd1 Hd2].
  pose proof (Z.log2_nonneg n) as HL. pose proof (Z.log2_nonneg d) as HM.
  set (L := Z.log2 n) in *. set (M := Z.log2 d) in *.
  assert (Py.lt_pow2 n d (L - M + 1)) as Hup.
  { unfold Py.lt_pow2.
    pose proof (pow2_quotient (L + 1) M ltac:(lia) ltac:(lia)) as Hq.
    replace (L + 1 - M) with (L - M + 1) in Hq by lia.
    replace (Z.succ L) with (L + 1) in Hn2 by lia.
    pose proof (pow2_num_pos (L - M + 1)) as HA. pose proof (pow2_den_pos (L - M + 1)) as HB.
    pose proof (Z.pow_pos_nonneg 2 M ltac:(lia) HM) as HpM.
    pose proof (Z.pow_pos_nonneg 2 (L + 1) ltac:(lia) ltac:(lia)) as HpL.
    set (A := Py.pow2_num (L - M + 1)) in *. set (B := Py.pow2_den (L - M + 1)) in *.
    set (pM := 2 ^ M) in *. set (pL := 2 ^ (L + 1)) in *.
    apply (Z.mul_lt_mono_pos_r pM); [lia|].
    replace (d * A * pM) with (d * (A * pM)) by ring. rewrite Hq.
    assert (n * pM < d * pL) as Hx by nia.
    replace (n * B * pM) with (B * (n * pM)) by ring.
    replace (d * (B * pL)) with (B * (d * pL)) by ring.
    apply Z.mul_lt_mono_pos_l; lia. }
  assert (Py.ge_pow2 n d (L - M - 1)) as Hlow.
  { unfold Py.ge_pow2.
    pose proof (pow2_quotient L (M + 1) ltac:(lia) ltac:(lia)) as Hq.
    replace (L - (M + 1)) with (L - M - 1) in Hq by lia.
    replace (Z.succ M) with (M + 1) in Hd2 by lia.
    pose proof (pow2_num_pos (L - M - 1)) as HA. pose proof (pow2_den_pos (L - M - 1)) as HB.
    pose proof (Z.pow_pos_nonneg 2 (M + 1) ltac:(lia) ltac:(lia)) as HpM.
    pose proof (Z.pow_pos_nonneg 2 L ltac:(lia) ltac:(lia)) as HpL.
    set (A := Py.pow2_num (L - M - 1)) in *. set (B := Py.pow2_den (L - M - 1)) in *.
    set (pM := 2 ^ (M + 1)) in *. set (pL := 2 ^ L) in *.
    apply (Z.mul_le_mono_pos_r _ _ pM); [lia|].
    replace (d * A * pM) with (d * (A * pM)) by ring. rewrite Hq.
    assert (d * pL <= n * pM) as Hx by nia.
    replace (n * B * pM) with (B * (n * pM)) by ring.
    replace (d * (B * pL)) with (B * (d * pL)) by ring.
    apply Z.mul_le_mono_nonneg_l; lia. }
  unfold Py.log2_quotient. fold L M.
  destruct (Z.leb_spec (d * Py.pow2_num (L - M)) (n * Py.pow2_den (L - M))) as [Hle|Hgt].
  - split; [exact Hle|exact Hup].
  - split; [exact Hlow|]. replace (L - M - 1 + 1) with (L - M) by lia. exact Hgt.
Qed.

(** *** Rounding to the nearest integer, ties to even *)

Lemma round_half_even_bounds n d :
  n / d <= Py.round_half_even n d <= n / d + 1.
Proof.
  unfold Py.round_half_even.
  destruct (2 * (n mod d) <? d); [lia|].
  destruct (d <? 2 * (n mod d)); [lia|].
  destruct (Z.even (n / d)); lia.
Qed.

Lemma round_half_even_exact c d : 0 < d -> Py.round_half_even (c * d) d = c.
Proof.
  intros Hd. unfold Py.round_half_even.
  rewrite Z.div_mul, Z.mod_mul by lia.
  destruct (Z.ltb_spec (2 * 0) d); [done|lia].
Qed.

Lemma round_half_even_mono n1 n2 d :
  0 < d -> n1 <= n2 -> Py.round_half_even n1 d <= Py.round_half_even n2 d.
Proof.
  intros Hd Hn.
  pose proof (Z.div_le_mono n1 n2 d Hd Hn) as Hq.
  destruct (Z.eq_dec (n1 / d) (n2 / d)) as [E|NE].
  - assert (n1 mod d <= n2 mod d) as Hr.
    { rewrite !Z.mod_eq by lia. rewrite E. lia. }
    unfold Py.round_half_even. rewrite E.
    destruct (Z.ltb_spec (2 * (n1 mod d)) d), (Z.ltb_spec (2 * (n2 mod d)) d);
      destruct (Z.ltb_spec d (2 * (n1 mod d))), (Z.ltb_spec d (2 * (n2 mod d)));
      destruct (Z.even (n2 / d)); lia.
  - pose proof (round_half_even_bounds n1 d). pose proof (round_half_even_bounds n2 d). lia.
Qed.

Lemma round_half_even_lower c n d :
  0 < d -> c * d <= n -> c <= Py.round_half_even n d.
Proof.
  intros Hd Hc. rewrite <- (round_half_even_exact c d Hd). by apply round_half_even_mono.
Qed.

Lemma round_half_even_upper c n d :
  0 < d -> n <= c * d -> Py.round_half_even n d <= c.
Proof.
  intros Hd Hc. rewrite <- (round_half_even_exact c d Hd). by apply round_half_even_mono.
Qed.

(** *** The nearest double *)

Lemma ge_pow2_scaled n d e j :
  0 < d -> 0 <= j -> Py.ge_pow2 n d (e + j) -> 2 ^ j * (d * Py.pow2_num e) <= n * Py.pow2_den e.
Proof.
  unfold Py.ge_pow2. intros Hd Hj H.
  pose proof (pow2_shift e j Hj) as Hs.
  pose proof (pow2_num_pos e) as HA. pose proof (pow2_den_pos e) as HB.
  pose proof (pow2_num_pos (e + j)) as HA'. pose proof (pow2_den_pos (e + j)) as HB'.
  set (A := Py.pow2_num e) in *. set (B := Py.pow2_den e) in *.
  set (A' := Py.pow2_num (e + j)) in *. set (B' := Py.pow2_den (e + j)) in *.
  set (P := 2 ^ j) in *.
  apply (Z.mul_le_mono_pos_r _ _ B'); [lia|].
  replace (P * (d * A) * B') with (d * (P * A * B')) by ring. rewrite <- Hs.
  replace (d * (A' * B)) with (d * A' * B) by ring.
  replace (n * B * B') with (n * B' * B) by ring.
  apply Z.mul_le_mono_nonneg_r; lia.
Qed.

Lemma lt_pow2_scaled n d e j :
  0 < d -> 0 <= j -> Py.lt_pow2 n d (e + j) -> n * Py.pow2_den e < 2 ^ j * (d * Py.pow2_num e).
Proof.
  unfold Py.lt_pow2. intros Hd Hj H.
  pose proof (pow2_shift e j Hj) as Hs.
  pose proof (pow2_num_pos e) as HA. pose proof (pow2_den_pos e) as HB.
  pose proof (pow2_num_pos (e + j)) as HA'. pose proof (pow2_den_pos (e + j)) as HB'.
  set (A := Py.pow2_num e) in *. set (B := Py.pow2_den e) in *.
  set (A' := Py.pow2_num (e + j)) in *. set (B' := Py.pow2_den (e + j)) in *.
  set (P := 2 ^ j) in *.
  apply (Z.mul_lt_mono_pos_r B'); [lia|].
  replace (P * (d * A) * B') with (d * (P * A * B')) by ring. rewrite <- Hs.
  replace (d * (A' * B)) with (d * A' * B) by ring.
  replace (n * B * B') with (n * B' * B) by ring.
  apply Z.mul_lt_mono_pos_r; lia.
Qed.

(** The mantissa has at most 53 bits, and exactly 53 for a normal
    number. *)
Lemma nearest_double_mantissa n d :
  0 < n -> 0 < d ->
  let x := Py.nearest_double n d in
  0 <= x.1 <= 2 ^ 53 /\
  (x.2 = Py.log2_quotient n d - 52 -> 2 ^ 52 <= x.1).
Proof.
  intros Hn Hd. destruct (log2_quotient_spec n d Hn Hd) as [Hge Hlt].
  unfold Py.nearest_double. set (k := Py.log2_quotient n d) in *.
  set (e := Z.max (k - 52) (-1074)). simpl.
  pose proof (pow2_num_pos e) as HA. pose proof (pow2_den_pos e) as HB.
  assert (0 < d * Py.pow2_num e) as HD by lia.
  split; [split|].
  - apply (round_half_even_lower 0); lia.
  - apply round_half_even_upper; [done|].
    apply (lt_pow2_mono n d (k + 1) (e + 53)) in Hlt; [|lia..].
    apply lt_pow2_scaled in Hlt; lia.
  - intros He. apply round_half_even_lower; [done|].
    replace k with (e + 52) in Hge by lia.
    apply ge_pow2_scaled in Hge; lia.
Qed.

Lemma div_le_cross a1 b1 a2 b2 :
  0 < b1 -> 0 < b2 -> a1 * b2 <= a2 * b1 -> a1 / b1 <= a2 / b2.
Proof.
  intros Hb1 Hb2 H. apply Z.div_le_lower_bound; [done|].
  pose proof (Z.mul_div_le a1 b1 Hb1) as Hq.
  apply (Z.mul_le_mono_pos_r _ _ b1); [done|].
  transitivity (a1 * b2); [|done]. nia.
Qed.

Lemma int_of_double_le m1 e1 m2 e2 :
  m1 * Py.pow2_num e1 * Py.pow2_den e2 <= m2 * Py.pow2_num e2 * Py.pow2_den e1 ->
  Py.int_of_double (m1, e1) <= Py.int_of_double (m2, e2).
Proof.
  intros H. unfold Py.int_of_double. simpl.
  apply div_le_cross; [apply pow2_den_pos..|done].
Qed.

Lemma nearest_double_zero d : 0 < d -> (Py.nearest_double 0 d).1 = 0.
Proof.
  intros Hd. unfold Py.nearest_double. simpl.
  set (e := Z.max _ _). pose proof (pow2_num_pos e).
  replace (0 * Py.pow2_den e) with (0 * (d * Py.pow2_num e)) by ring.
  apply round_half_even_exact. lia.
Qed.

Lemma int_of_double_nonneg x : 0 <= x.1 -> 0 <= Py.int_of_double x.
Proof.
  intros Hm. unfold Py.int_of_double. apply Z.div_pos; [|apply pow2_den_pos].
  pose proof (pow2_num_pos x.2). lia.
Qed.

Lemma nearest_double_nonneg n d : 0 <= n -> 0 < d -> 0 <= (Py.nearest_double n d).1.
Proof.
  intros Hn Hd. destruct (Z.eq_dec n 0) as [->|Hpos].
  - by rewrite nearest_double_zero.
  - by destruct (nearest_double_mantissa n d ltac:(lia) Hd) as [[? _] _].
Qed.

(** [int(n / d)] never decreases when the numerator grows. *)
Lemma int_of_nearest_double_mono n1 n2 d :
  0 <= n1 -> n1 <= n2 -> 0 < d ->
  Py.int_of_double (Py.nearest_double n1 d) <= Py.int_of_double (Py.nearest_double n2 d).
Proof.
  intros Hn1 Hn Hd.
  destruct (Z.eq_dec n1 0) as [->|Hpos].
  { transitivity 0.
    - unfold Py.int_of_double. by rewrite nearest_double_zero.
    - apply int_of_double_nonneg, nearest_double_nonneg; lia. }
  destruct (log2_quotient_spec n1 d ltac:(lia) Hd) as [Hge1 Hlt1].
  destruct (log2_quotient_spec n2 d ltac:(lia) Hd) as [Hge2 Hlt2].
  assert (Py.log2_quotient n1 d <= Py.log2_quotient n2 d) as Hk.
  { assert (Py.log2_quotient n1 d < Py.log2_quotient n2 d + 1); [|lia].
    apply (ge_lt_pow2 n1 d); [lia..|done|].
    unfold Py.lt_pow2 in *. pose proof (pow2_den_pos (Py.log2_quotient n2 d + 1)). nia. }
  destruct (nearest_double_mantissa n1 d ltac:(lia) Hd) as [[Hm1 Hm1'] _].
  destruct (nearest_double_mantissa n2 d ltac:(lia) Hd) as [[Hm2 Hm2'] Hnorm].
  unfold Py.nearest_double in *. simpl in *.
  set (k1 := Py.log2_quotient n1 d) in *. set (k2 := Py.log2_quotient n2 d) in *.
  set (e1 := Z.max (k1 - 52) (-1074)) in *. set (e2 := Z.max (k2 - 52) (-1074)) in *.
  set (m1 := Py.round_half_even (n1 * Py.pow2_den e1) (d * Py.pow2_num e1)) in *.
  set (m2 := Py.round_half_even (n2 * Py.pow2_den e2) (d * Py.pow2_num e2)) in *.
  apply int_of_double_le.
  pose proof (pow2_num_pos e1) as HA1. pose proof (pow2_den_pos e1) as HB1.
  pose proof (pow2_num_pos e2) as HA2. pose proof (pow2_den_pos e2) as HB2.
  destruct (Z.eq_dec e1 e2) as [E|NE].
  - assert (m1 <= m2) as Hm.
    { unfold m1, m2. rewrite E. apply round_half_even_mono; [lia|]. nia. }
    rewrite E. apply Z.mul_le_mono_nonneg_r; [lia|]. apply Z.mul_le_mono_nonneg_r; lia.
  - assert (e1 < e2) as He by lia.
    assert (2 ^ 52 <= m2) as Hbig by (apply Hnorm; lia).
    pose proof (pow2_shift e1 (e2 - e1) ltac:(lia)) as Hs.
    replace (e1 + (e2 - e1)) with e2 in Hs by lia.
    assert (2 <= 2 ^ (e2 - e1)) as Hp.
    { change 2 with (2 ^ 1) at 1. apply Z.pow_le_mono_r; lia. }
    set (A1 := Py.pow2_num e1) in *. set (B1 := Py.pow2_den e1) in *.
    set (A2 := Py.pow2_num e2) in *. set (B2 := Py.pow2_den e2) in *.
    set (P := 2 ^ (e2 - e1)) in *.
    replace (m2 * A2 * B1) with (m2 * (A2 * B1)) by ring. rewrite Hs.
    change (2 ^ 53) with (2 * 2 ^ 52) in Hm1'.
    set (T := 2 ^ 52) in *.
    assert (0 < A1 * B2) as Hab by nia.
    replace (m1 * A1 * B2) with (m1 * (A1 * B2)) by ring.
    replace (m2 * (P * A1 * B2)) with (m2 * P * (A1 * B2)) by ring.
    apply Z.mul_le_mono_nonneg_r; [lia|]. nia.
Qed.

(** A quotient that is an integer below [2^53] is a double, so it is
    what the division yields. *)
Lemma int_of_nearest_double_exact c d :
  0 <= c < 2 ^ 53 -> 0 < d -> Py.int_of_double (Py.nearest_double (c * d) d) = c.
Proof.
  intros [Hc0 Hc] Hd. destruct (Z.eq_dec c 0) as [->|Hpos].
  { unfold Py.int_of_double. by rewrite Z.mul_0_l, nearest_double_zero. }
  assert (0 < c * d) as Hn by nia.
  destruct (log2_quotient_spec (c * d) d Hn Hd) as [Hge _].
  assert (Py.log2_quotient (c * d) d < 53) as Hk.
  { apply (ge_lt_pow2 (c * d) d); [lia..|done|].
    unfold Py.lt_pow2. change (Py.pow2_den 53) with 1. change (Py.pow2_num 53) with (2 ^ 53).
    set (T := 2 ^ 53) in *. nia. }
  unfold Py.nearest_double, Py.int_of_double. simpl.
  set (e := Z.max (Py.log2_quotient (c * d) d - 52) (-1074)).
  assert (Py.pow2_num e = 1) as ->.
  { unfold Py.pow2_num. replace (Z.max e 0) with 0 by lia. done. }
  pose proof (pow2_den_pos e) as HB.
  rewrite !Z.mul_1_r.
  replace (c * d * Py.pow2_den e) with (c * Py.pow2_den e * d) by ring.
  rewrite round_half_even_exact by done.
  apply Z.div_mul. lia.
Qed.

Lemma int_of_nearest_double_lower c n d :
  0 <= c < 2 ^ 53 -> 0 < d -> c * d <= n -> c <= Py.int_of_double (Py.nearest_double n d).
Proof.
  intros Hc Hd Hn. rewrite <- (int_of_nearest_double_exact c d Hc Hd).
  apply int_of_nearest_double_mono; [nia|done..].
Qed.

Lemma int_of_nearest_double_upper c n d :
  0 <= c < 2 ^ 53 -> 0 < d -> 0 <= n -> n <= c * d ->
  Py.int_of_double (Py.nearest_double n d) <= c.
Proof.
  intros Hc Hd Hn0 Hn. rewrite <- (int_of_nearest_double_exact c d Hc Hd).
  by apply int_of_nearest_double_mono.
Qed.

(** The quotient is within the range of a double as long as it stays
    below [2^1023]. *)
Lemma nearest_double_in_range n d :
  0 <= n -> 0 < d -> n < 2 ^ 1023 * d -> Py.double_overflows (Py.nearest_double n d) = false.
Proof.
  intros Hn0 Hd Hn. unfold Py.double_overflows. apply Z.leb_gt.
  destruct (Z.eq_dec n 0) as [->|Hpos].
  { rewrite nearest_double_zero by done.
    pose proof (pow2_den_pos (Py.nearest_double 0 d).2).
    pose proof (Z.pow_pos_nonneg 2 1024). lia. }
  destruct (log2_quotient_spec n d ltac:(lia) Hd) as [Hge _].
  assert (Py.log2_quotient n d < 1023) as Hk.
  { apply (ge_lt_pow2 n d); [lia..|done|].
    unfold Py.lt_pow2. change (Py.pow2_den 1023) with 1. change (Py.pow2_num 1023) with (2 ^ 1023).
    lia. }
  destruct (nearest_double_mantissa n d ltac:(lia) Hd) as [[Hm Hm'] _].
  unfold Py.nearest_double in *. simpl in *.
  set (e := Z.max (Py.log2_quotient n d - 52) (-1074)) in *.
  set (m := Py.round_half_even _ _) in *.
  pose proof (pow2_den_pos e) as HB. pose proof (pow2_num_pos e) as HA.
  assert (Py.pow2_num e <= 2 ^ 970) as Hnum.
  { unfold Py.pow2_num. apply Z.pow_le_mono_r; lia. }
  change (2 ^ 1024) with (2 * (2 ^ 53 * 2 ^ 970)).
  set (T := 2 ^ 53) in *. set (U := 2 ^ 970) in *.
  assert (0 < T) by done. assert (0 < U) by done.
  assert (m * Py.pow2_num e <= T * U) by (apply Z.mul_le_mono_nonneg; lia).
  nia.
Qed.

(** *** [int(a / b)] *)

Lemma int_quotient_nonneg (a b : Z) :
  0 <= a -> 0 < b -> Py.int_quotient a b = Py.int_of_double (Py.nearest_double a b).
Proof.
  intros Ha Hb. unfold Py.int_quotient.
  rewrite (Z.abs_eq a), (Z.abs_eq b), (Z.sgn_pos b) by lia.
  destruct (Z.eq_dec a 0) as [->|Hpos].
  - unfold Py.int_of_double. rewrite nearest_double_zero by done. done.
  - rewrite Z.sgn_pos by lia. lia.
Qed.

Lemma int_quotient_opp_r (a b : Z) : Py.int_quotient a (- b) = - Py.int_quotient a b.
Proof. unfold Py.int_quotient. rewrite Z.abs_opp, Z.sgn_opp. lia. Qed.

Lemma int_quotient_mono (a a' b : Z) :
  0 <= a -> a <= a' -> 0 < b -> Py.int_quotient a b <= Py.int_quotient a' b.
Proof.
  intros Ha Haa Hb. rewrite !int_quotient_nonneg by lia.
  by apply int_of_nearest_double_mono.
Qed.

Lemma int_quotient_lower (c a b : Z) :
  0 <= c < 2 ^ 53 -> 0 < b -> c * b <= a -> c <= Py.int_quotient a b.
Proof.
  intros Hc Hb Ha. rewrite int_quotient_nonneg by nia.
  by apply int_of_nearest_double_lower.
Qed.

Lemma int_quotient_upper (c a b : Z) :
  0 <= c < 2 ^ 53 -> 0 < b -> 0 <= a -> a <= c * b -> Py.int_quotient a b <= c.
Proof.
  intros Hc Hb Ha0 Ha. rewrite int_quotient_nonneg by lia.
  by apply int_of_nearest_double_upper.
Qed.

Lemma int_truediv_zero (a : Z) : Py.int_truediv a 0 = Py.Raised Py.ZeroDivisionError.
Proof. reflexivity. Qed.

(** With a divisor other than 0 the division returns, unless the
    quotient is as large as [2^1023], where it may overflow. *)
Lemma int_truediv_cases (a b : Z) :
  b <> 0 ->
  2 ^ 1023 * Z.abs b <= Z.abs a /\ Py.int_truediv a b = Py.Raised Py.OverflowError \/
  Py.int_truediv a b = Py.Returned (Py.int_quotient a b).
Proof.
  intros Hb. unfold Py.int_truediv.
  destruct (Z.eqb_spec b 0) as [|_]; [done|].
  destruct (Py.double_overflows _) eqn:Hover; [left|by right].
  split; [|done].
  destruct (Z.le_gt_cases (2 ^ 1023 * Z.abs b) (Z.abs a)) as [|Hlt]; [done|].
  rewrite nearest_double_in_range in Hover; [done|lia..].
Qed.

Lemma int_truediv_returns (a b : Z) :
  b <> 0 -> Z.abs a < 2 ^ 1023 * Z.abs b ->
  Py.int_truediv a b = Py.Returned (Py.int_quotient a b).
Proof.
  intros Hb Ha. destruct (int_truediv_cases a b Hb) as [[Hbig _]|H]; [lia|done].
Qed.

(** *** Strings and paths *)

Lemma append_cons (c : ascii) (a b : string) : String c a +:+ b = String c (a +:+ b).
Proof. reflexivity. Qed.

Lemma append_nil_r (a : string) : a +:+ "" = a.
Proof. induction a as [|c a IH]; [done|]. by rewrite append_cons, IH. Qed.

Lemma append_assoc (a b c : string) : (a +:+ b) +:+ c = a +:+ b +:+ c.
Proof. induction a as [|x a IH]; [done|]. by rewrite !append_cons, IH. Qed.

Lemma strip_prefix_append (p s : string) : Py.strip_prefix p (p +:+ s) = Some s.
Proof.
  induction p as [|a p IH]; [done|]. rewrite append_cons. simpl.
  by destruct (decide (a = a)).
Qed.

Lemma strip_prefix_Some (p s rest : string) :
  Py.strip_prefix p s = Some rest -> s = p +:+ rest.
Proof.
  revert s. induction p as [|a p IH]; intros s; simpl.
  - by intros [= ->].
  - destruct s as [|b s]; [done|].
    destruct (decide (a = b)) as [->|]; [|done]. intros H. by rewrite (IH s H).
Qed.

Lemma startswith_contains (c : ascii) (s : string) :
  Py.contains_char c s = false -> Py.startswith_char c s = false.
Proof.
  destruct s as [|a s]; simpl; [done|]. by destruct (decide (a = c)).
Qed.

(** A relative name is joined by appending it to the directory prefix. *)
Lemma os_path_join_relative (dir name : string) :
  Py.startswith_char "/" name = false ->
  Py.os_path_join dir name = Py.os_path_join dir "" +:+ name.
Proof.
  intros Hrel. unfold Py.os_path_join. rewrite Hrel. simpl.
  destruct (_ || _).
  - by rewrite append_nil_r.
  - by rewrite append_assoc.
Qed.

Lemma before_char_absent (c : ascii) (s : string) :
  Py.contains_char c s = false -> Py.before_char c s = s.
Proof.
  induction s as [|a s IH]; simpl; [done|].
  destruct (decide (a = c)); simpl; [done|]. intros H. by rewrite IH.
Qed.

Lemma contains_char_append (c : ascii) (a b : string) :
  Py.contains_char c (a +:+ b) = Py.contains_char c a || Py.contains_char c b.
Proof.
  induction a as [|x a IH]; [done|]. rewrite append_cons. simpl.
  by rewrite IH, orb_assoc.
Qed.

Lemma directory_prefix_absent (s : string) :
  Py.contains_char "/" s = false -> Py.directory_prefix s = "".
Proof. destruct s as [|a s]; [done|]. intros H. simpl in *. by rewrite H. Qed.

(** The directory prefix of a name appended to a prefix that ends with
    a separator is that prefix. *)
Lemma directory_prefix_append (p name : string) :
  Py.endswith_char "/" p = true -> Py.contains_char "/" name = false ->
  Py.directory_prefix (p +:+ name) = p.
Proof.
  intros Hp Hname. induction p as [|a p IH]; [done|].
  rewrite append_cons.
  assert (Py.contains_char "/" (String a (p +:+ name)) = true) as Hc.
  { change (String a (p +:+ name)) with (String a p +:+ name).
    rewrite contains_char_append.
    replace (Py.contains_char "/" (String a p)) with true; [done|].
    clear IH Hname. symmetry. revert a Hp.
    induction p as [|b p IHp]; intros a Hp; simpl in *.
    - by destruct (decide (a = "/"%char)).
    - rewrite (IHp b Hp). by destruct (decide (a = "/"%char)). }
  cbn [Py.directory_prefix]. rewrite Hc. f_equal.
  destruct p as [|b p].
  - simpl. by apply directory_prefix_absent.
  - by apply IH.
Qed.

Lemma endswith_char_append (s : string) : Py.endswith_char "/" (s +:+ "/") = true.
Proof.
  induction s as [|a s IH]; [done|]. rewrite append_cons.
  destruct s as [|b s]; [done|]. exact IH.
Qed.

Lemma os_path_join_empty (dir : string) :
  Py.os_path_join dir ""
  = if decide (dir = "") then ""
    else if Py.endswith_char "/" dir then dir else dir +:+ "/".
Proof.
  unfold Py.os_path_join. simpl.
  destruct (decide (dir = "")) as [->|Hne]; simpl; [done|].
  destruct (Py.endswith_char "/" dir); by rewrite ?append_nil_r.
Qed.

(** The directory prefix that [os.path.join] puts before a name is
    empty or ends with a separator, and joining leaves it as it is. *)
Lemma os_path_join_prefix (dir : string) :
  (Py.os_path_join dir "" = "" \/ Py.endswith_char "/" (Py.os_path_join dir "") = true) /\
  Py.os_path_join (Py.os_path_join dir "") "" = Py.os_path_join dir "".
Proof.
  rewrite (os_path_join_empty dir).
  destruct (decide (dir = "")) as [->|Hne]; [by split; [left|]|].
  destruct (Py.endswith_char "/" dir) eqn:He.
  - split; [by right|]. rewrite os_path_join_empty, He. by destruct (decide (dir = "")).
  - split; [right; apply endswith_char_append|].
    rewrite os_path_join_empty, endswith_char_append.
    by destruct (decide (dir +:+ "/" = "")).
Qed.
(** * Facts about the manager *)

Ltac monad_unfold :=
  unfold mbind, mret, M_bind, M_ret, bind, ret, raise, modify, get, lift, try_except in *.

(** ** What a computation leaves alone *)

Lemma preserves_ret {A B} (proj : state -> B) (a : A) : preserves proj (mret a).
Proof. by intros s. Qed.

Lemma preserves_raise {A B} (proj : state -> B) (e : Py.exn) : preserves proj (@raise A e).
Proof. by intros s. Qed.

Lemma preserves_lift {A B} (proj : state -> B) (o : Py.outcome A) : preserves proj (lift o).
Proof. by intros s. Qed.

Lemma preserves_get {B} (proj : state -> B) : preserves proj get.
Proof. by intros s. Qed.

Lemma preserves_modify {B} (proj : state -> B) (f : state -> state) :
  (forall s, proj (f s) = proj s) -> preserves proj (modify f).
Proof. intros Hf s. apply Hf. Qed.

Lemma preserves_bind {A A' B} (proj : state -> B) (m : M A) (k : A -> M A') :
  preserves proj m -> (forall a, preserves proj (k a)) -> preserves proj (m ≫= k).
Proof.
  intros Hm Hk s. monad_unfold. specialize (Hm s).
  destruct (m s) as [s' [a|e]]; simpl in *; [|done].
  by rewrite Hk.
Qed.

Lemma preserves_try_except {A B} (proj : state -> B) (m : M A) (h : Py.exn -> M A) :
  preserves proj m -> (forall e, preserves proj (h e)) -> preserves proj (try_except m h).
Proof.
  intros Hm Hh s. monad_unfold. specialize (Hm s).
  destruct (m s) as [s' [a|e]]; simpl in *; [done|].
  by rewrite Hh.
Qed.

Create HintDb frame discriminated.
#[local] Hint Resolve preserves_ret preserves_raise preserves_lift preserves_get : frame.

Ltac frame_step :=
  first
    [ apply preserves_bind; [|intros ?]
    | apply preserves_try_except; [|intros ?]
    | apply preserves_modify; intros ?; reflexivity
    | solve [eauto with frame] ].

Ltac frame := repeat frame_step.

Lemma emit_preserves {B} (proj : state -> B) (sig : signal) :
  (forall f s, proj (set_emitted f s) = proj s) -> preserves proj (emit sig).
Proof. intros Hp. apply preserves_modify. intros s. apply Hp. Qed.

Lemma update_progress_preserves {B} (proj : state -> B) code bn bs total :
  (forall f s, proj (set_emitted f s) = proj s) ->
  preserves proj (update_progress code bn bs total).
Proof.
  intros Hp. unfold update_progress. frame. by apply emit_preserves.
Qed.

Lemma call_hook_preserves {B} (proj : state -> B) hook bn bs total :
  (forall h, hook = Some h -> forall a b c, preserves proj (h a b c)) ->
  preserves proj (call_hook hook bn bs total).
Proof.
  intros Hh. destruct hook as [h|]; simpl; [by eapply Hh|]. apply preserves_ret.
Qed.

Lemma copy_blocks_preserves {B} (proj : state -> B) rs filename hook bs size read bn :
  (forall f s, proj (set_files f s) = proj s) ->
  (forall h, hook = Some h -> forall a b c, preserves proj (h a b c)) ->
  preserves proj (copy_blocks rs filename hook bs size read bn).
Proof.
  intros Hf Hh. revert read bn.
  induction rs as [|[data|] rs IH]; intros read bn; simpl.
  - apply preserves_ret.
  - destruct data as [|a data]; [apply preserves_ret|].
    apply preserves_bind; [apply preserves_modify; intros s; apply Hf|intros _].
    apply preserves_bind; [by apply call_hook_preserves|intros _].
    apply IH.
  - apply preserves_raise.
Qed.

Lemma retrieve_response_preserves {B} (proj : state -> B) r filename hook :
  (forall f s, proj (set_files f s) = proj s) ->
  (forall h, hook = Some h -> forall a b c, preserves proj (h a b c)) ->
  preserves proj (retrieve_response r filename hook).
Proof.
  intros Hf Hh. unfold retrieve_response.
  apply preserves_bind; [apply preserves_modify; intros s; apply Hf|intros _].
  apply preserves_bind; [by apply call_hook_preserves|intros _].
  apply preserves_bind; [by apply copy_blocks_preserves|intros read].
  destruct (_ && _); [apply preserves_raise|apply preserves_ret].
Qed.

Lemma urlretrieve_preserves {B} (proj : state -> B) url filename hook :
  (forall f s, proj (set_files f s) = proj s) ->
  (forall f s, proj (set_requests f s) = proj s) ->
  (forall h, hook = Some h -> forall a b c, preserves proj (h a b c)) ->
  preserves proj (urlretrieve url filename hook).
Proof.
  intros Hf Hr Hh. unfold urlretrieve.
  apply preserves_bind; [apply preserves_get|intros s0].
  apply preserves_bind; [apply preserves_modify; intros s; apply Hr|intros _].
  destruct (network _ url) as [r|]; [|apply preserves_raise].
  by apply retrieve_response_preserves.
Qed.

(** One call of [urlretrieve] is one request, whatever its outcome. *)
Lemma urlretrieve_one_request url filename hook s :
  (forall h, hook = Some h -> forall a b c, preserves requests (h a b c)) ->
  requests (urlretrieve url filename hook s).1 = requests s ++ [(url, filename)].
Proof.
  intros Hh. unfold urlretrieve. monad_unfold. simpl.
  destruct (network _ url) as [r|]; [|done].
  by rewrite (retrieve_response_preserves requests r filename hook).
Qed.

(** ** Downloading *)

Lemma update_progress_keeps_requests (h : Z -> Z -> Z -> M unit) (code : string) :
  Some (update_progress code) = Some h -> forall a b c, preserves requests (h a b c).
Proof. intros [= <-] a b c. by apply update_progress_preserves. Qed.

(** C1: [download_begin] makes one attempt at the best-quality
    repository, writing to the pack file in the data directory; if that
    attempt returns, nothing else is requested and the code is returned;
    only if it raises is the fallback repository tried, once, and the
    code is returned if that attempt returns.  The log of requests grows
    by exactly one or exactly two entries, and [download_begin] itself
    never raises. *)
Theorem download_begin_two_tier (code : string) (s : state) :
  let tessfile := code +:+ ".traineddata" in
  let path := Py.os_path_join tessdata_dir tessfile in
  let best := (tessdata_best_url +:+ tessfile, path) in
  let fallback := (tessdata_url +:+ tessfile, path) in
  match urlretrieve best.1 path (Some (update_progress code)) s with
  | (s1, Py.Returned _) =>
      download_begin code s = (s1, Py.Returned (Some code)) /\
      requests s1 = requests s ++ [best]
  | (s1, Py.Raised _) =>
      match urlretrieve fallback.1 path None s1 with
      | (s2, Py.Returned _) =>
          download_begin code s = (s2, Py.Returned (Some code)) /\
          requests s2 = requests s ++ [best; fallback]
      | (s2, Py.Raised _) =>
          download_begin code s = (s2, Py.Returned None) /\
          requests s2 = requests s ++ [best; fallback]
      end
  end.
Proof.
  intros tessfile path best fallback. simpl.
  pose proof (urlretrieve_one_request (tessdata_best_url +:+ tessfile) path
                (Some (update_progress code)) s
                (fun h => update_progress_keeps_requests h code)) as H1.
  unfold download_begin. fold tessfile. fold path. monad_unfold.
  destruct (urlretrieve (tessdata_best_url +:+ tessfile) path _ s) as [s1 [[]|e1]];
    simpl in H1.
  - by split.
  - assert (requests (urlretrieve (tessdata_url +:+ tessfile) path None s1).1
            = requests s1 ++ [fallback]) as H2.
    { apply urlretrieve_one_request. intros h Hh. discriminate. }
    destruct (urlretrieve (tessdata_url +:+ tessfile) path None s1) as [s2 [[]|e2]];
      simpl in H2; (split; [done|]); by rewrite H2, H1, <- app_assoc.
Qed.


Lemma download_begin_keeps_loading (code : string) :
  preserves loading_languages (download_begin code).
Proof.
  unfold download_begin.
  apply preserves_try_except; [|intros e1; apply preserves_try_except].
  - apply preserves_bind; [|intros _; apply preserves_ret].
    apply urlretrieve_preserves; [done..|].
    intros h [= <-] a b c. by apply update_progress_preserves.
  - apply preserves_bind; [|intros _; apply preserves_ret].
    apply urlretrieve_preserves; [done..|]. intros h Hh. discriminate.
  - intros e2. apply preserves_ret.
Qed.

(** [download_begin] returns its argument or [None], and never raises. *)
Lemma download_begin_result (code : string) (s : state) :
  (download_begin code s).2 = Py.Returned (Some code) \/
  (download_begin code s).2 = Py.Returned None.
Proof.
  unfold download_begin. monad_unfold.
  destruct (urlretrieve _ _ (Some _) s) as [s1 [[]|e1]]; [by left|].
  destruct (urlretrieve _ _ None s1) as [s2 [[]|e2]]; [by left|by right].
Qed.

(** Only [download_done] called with the code itself takes the entry of
    that code out of [loading_languages]. *)
Lemma loading_entry_stays (code : string) (result : option string) (s : state) :
  result <> Some code ->
  is_Some (loading_languages s !! code) ->
  is_Some (loading_languages (download_done result s).1 !! code).
Proof.
  intros Hne Hin. unfold download_done, loading_languages_pop, emit. monad_unfold.
  simpl. destruct (Py.truthy result) eqn:Ht; [|done].
  destruct result as [c|]; [|done]. simpl.
  destruct (_ !! c) eqn:Hc; simpl; [|done].
  rewrite lookup_delete_ne; [done|congruence].
Qed.

Lemma perform_keeps_entry (code : string) (c : call) (s : state) :
  c <> Job code ->
  is_Some (loading_languages s !! code) ->
  is_Some (loading_languages (perform c s).1 !! code).
Proof.
  intros Hc Hin. destruct c as [force|code'|code'|code']; simpl.
  - replace (loading_languages _) with (loading_languages s); [done|].
    symmetry. apply (preserves_bind loading_languages); [|intros l; apply preserves_ret].
    unfold get_downloaded_codes, os_listdir.
    apply preserves_bind; [apply preserves_get|intros s0].
    apply preserves_bind; [|intros _].
    { destruct (_ || _); [|apply preserves_ret].
      apply preserves_bind; [|intros names].
      { apply preserves_bind; [apply preserves_get|intros s1].
        destruct (directory_exists _ s1); [apply preserves_ret|apply preserves_raise]. }
      apply preserves_bind; [apply preserves_modify; intros ?; reflexivity|intros _].
      apply preserves_modify; intros ?; reflexivity. }
    apply preserves_bind; [apply preserves_get|intros s1]. apply preserves_lift.
  - simpl. destruct (decide (code' = code)) as [->|Hne].
    + rewrite lookup_insert_eq. by eexists.
    + by rewrite lookup_insert_ne.
  - replace (loading_languages _) with (loading_languages s); [done|].
    symmetry. unfold remove_language, os_remove.
    apply (preserves_bind loading_languages).
    + apply preserves_bind; [apply preserves_get|intros s0].
      destruct (files s0 !! _); [|apply preserves_raise].
      apply preserves_bind; [apply preserves_modify; intros ?; reflexivity|intros _].
      apply preserves_modify; intros ?; reflexivity.
    + intros _. apply preserves_bind; [apply preserves_modify; intros ?; reflexivity|intros _].
      apply emit_preserves; intros ? ?; reflexivity.
  - assert (code' <> code) as Hne by congruence.
    unfold run_job. monad_unfold.
    pose proof (download_begin_keeps_loading code' s) as Hkeep.
    pose proof (download_begin_result code' s) as Hres.
    destruct (download_begin code' s) as [s1 r]. simpl in Hkeep, Hres.
    destruct Hres as [-> | ->]; apply loading_entry_stays; rewrite ?Hkeep;
      (done || congruence).
Qed.

(** The entry of a code outlives every sequence of calls in which no
    background job for that code runs. *)
Lemma perform_all_keeps_entry (code : string) (calls : list call) (s : state) :
  Forall (fun c => c <> Job code) calls ->
  is_Some (loading_languages s !! code) ->
  is_Some (loading_languages (perform_all calls s) !! code).
Proof.
  unfold perform_all. revert s.
  induction calls as [|c calls IH]; intros s Hcalls Hin; simpl; [done|].
  apply Forall_cons in Hcalls as [Hc Hcalls].
  apply IH; [done|]. by apply perform_keeps_entry.
Qed.

(** C9: when both attempts raise, [download_begin] returns [None]
    without raising; [download_done] called with that [None] sets the
    invalidation flag, emits ['downloaded'] with [None], and pops
    nothing, so after the whole background job [loading_languages] is
    what it was, the failed code's entry included.  The entry then
    stays through every later sequence of calls in which no further
    background job for that code runs. *)
Theorem failed_download_stays_loading (code : string) (s s1 s2 : state) (e1 e2 : Py.exn) :
  urlretrieve (tessdata_best_url +:+ code +:+ ".traineddata")
    (Py.os_path_join tessdata_dir (code +:+ ".traineddata"))
    (Some (update_progress code)) s = (s1, Py.Raised e1) ->
  urlretrieve (tessdata_url +:+ code +:+ ".traineddata")
    (Py.os_path_join tessdata_dir (code +:+ ".traineddata")) None s1
    = (s2, Py.Raised e2) ->
  download_begin code s = (s2, Py.Returned None) /\
  download_done None s2
  = (set_emitted (fun l => l ++ [Downloaded None]) (set_need_update_cache true s2),
     Py.Returned tt) /\
  run_job code s
  = (set_emitted (fun l => l ++ [Downloaded None]) (set_need_update_cache true s2),
     Py.Returned tt) /\
  loading_languages (run_job code s).1 = loading_languages s /\
  (forall calls,
     Forall (fun c => c <> Job code) calls ->
     is_Some (loading_languages s !! code) ->
     is_Some (loading_languages (perform_all calls (run_job code s).1) !! code)).
Proof.
  intros H1 H2.
  assert (download_begin code s = (s2, Py.Returned None)) as Hb.
  { unfold download_begin. monad_unfold. by rewrite H1, H2. }
  assert (loading_languages s2 = loading_languages s) as Hl.
  { transitivity (loading_languages s1).
    - change s2 with (s2, @Py.Raised unit e2).1. rewrite <- H2.
      apply urlretrieve_preserves; [done..|]. intros h Hh. discriminate.
    - change s1 with (s1, @Py.Raised unit e1).1. rewrite <- H1.
      apply urlretrieve_preserves; [done..|].
      intros h [= <-] a b c. by apply update_progress_preserves. }
  split; [exact Hb|]. split; [done|].
  assert (run_job code s
          = (set_emitted (fun l => l ++ [Downloaded None]) (set_need_update_cache true s2),
             Py.Returned tt)) as Hjob.
  { unfold run_job. monad_unfold. by rewrite Hb. }
  split; [exact Hjob|]. rewrite Hjob. simpl. split; [exact Hl|].
  intros calls Hcalls Hin. apply perform_all_keeps_entry; [done|]. simpl. by rewrite Hl.
Qed.

(** C6: [download] does not look at [loading_languages] before it
    acts.  Called for a code that is already recorded as loading, it
    replaces the entry by a fresh [DownloadState], emits ['added'] and
    the initial ['downloading'], and hands one more job for that code to
    the background worker. *)
Theorem download_not_deduplicated (code : string) (d : DownloadState) (s : state) :
  loading_languages s !! code = Some d ->
  exists s',
    download code s = (s', Py.Returned tt) /\
    loading_languages s' = <[code := DownloadState_new]> (loading_languages s) /\
    loading_languages s' !! code = Some DownloadState_new /\
    emitted s' = emitted s ++ [Added code; Downloading code Tenth] /\
    dispatched s' = dispatched s ++ [code] /\
    _downloaded_codes s' = _downloaded_codes s /\
    _need_update_cache s' = _need_update_cache s /\
    files s' = files s /\
    requests s' = requests s.
Proof.
  intros _. eexists. split; [reflexivity|]. simpl.
  rewrite lookup_insert_eq, <- app_assoc. done.
Qed.

(** ** Removing *)

(** C5: when the pack file of [code] exists, [remove_language] deletes
    the file at that path, leaves the content at every other path as it
    was, and emits ['removed'] with the code. *)
Theorem remove_language_removes_pack (code content : string) (s : state) :
  files s !! Py.os_path_join tessdata_dir (code +:+ ".traineddata") = Some content ->
  exists s',
    remove_language code s = (s', Py.Returned tt) /\
    files s' = delete (Py.os_path_join tessdata_dir (code +:+ ".traineddata")) (files s) /\
    files s' !! Py.os_path_join tessdata_dir (code +:+ ".traineddata") = None /\
    (forall path,
       path <> Py.os_path_join tessdata_dir (code +:+ ".traineddata") ->
       files s' !! path = files s !! path) /\
    emitted s' = emitted s ++ [Removed code].
Proof.
  intros Hfile. unfold remove_language, os_remove, emit. monad_unfold.
  rewrite Hfile. simpl. eexists. split; [reflexivity|]. simpl.
  split; [done|]. split; [apply lookup_delete_eq|].
  split; [|done]. intros path Hne. by apply lookup_delete_ne.
Qed.

(** C10: when the pack file of [code] does not exist, [remove_language]
    raises from the removal and leaves the whole state as it was: the
    invalidation flag keeps its value and no signal is emitted. *)
Theorem remove_language_missing_pack (code : string) (s : state) :
  files s !! Py.os_path_join tessdata_dir (code +:+ ".traineddata") = None ->
  remove_language code s = (s, Py.Raised Py.FileNotFoundError) /\
  _need_update_cache (remove_language code s).1 = _need_update_cache s /\
  emitted (remove_language code s).1 = emitted s.
Proof.
  intros Hfile.
  assert (remove_language code s = (s, Py.Raised Py.FileNotFoundError)) as H.
  { unfold remove_language, os_remove. monad_unfold. by rewrite Hfile. }
  by rewrite H.
Qed.

(** ** The catalog *)

Lemma catalog_codes_NoDup : NoDup (catalog_entries.*1).
Proof. apply (bool_decide_unpack _). by vm_compute. Qed.

Lemma catalog_titles_NoDup : NoDup (catalog_entries.*2).
Proof. apply (bool_decide_unpack _). by vm_compute. Qed.

Lemma languages_from (acc : Py.dict string) (entries : list (string * string)) :
  NoDup (Py.dict_keys acc ++ entries.*1) ->
  foldl (fun d '(code, title) => Py.dict_setitem code (gettext title) d) acc entries
  = acc ++ (translated <$> entries).
Proof.
  revert acc. induction entries as [|[code title] entries IH]; intros acc Hnd; simpl.
  - by rewrite app_nil_r.
  - rewrite dict_setitem_fresh.
    + rewrite IH.
      * by rewrite <- app_assoc.
      * unfold Py.dict_keys in *. rewrite fmap_app, <- app_assoc. exact Hnd.
    + apply NoDup_app in Hnd as (_ & Hdisj & _).
      intros Hin. apply (Hdisj code Hin). simpl. apply elem_of_cons. by left.
Qed.

(** No code is assigned twice, so the dictionary holds the entries in
    source order, each with its translated title. *)
Lemma languages_eq : _languages = translated <$> catalog_entries.
Proof. unfold _languages. rewrite languages_from; [done|]. apply catalog_codes_NoDup. Qed.

Lemma languages_keys : Py.dict_keys _languages = catalog_entries.*1.
Proof.
  rewrite languages_eq. unfold Py.dict_keys. rewrite <- list_fmap_compose.
  apply list_fmap_ext. by intros i [c t] _.
Qed.

Lemma languages_keys_NoDup : NoDup (Py.dict_keys _languages).
Proof. rewrite languages_keys. apply catalog_codes_NoDup. Qed.

Lemma get_language_is_Some (code : string) :
  code ∈ Py.dict_keys _languages -> is_Some (get_language code).
Proof. apply dict_keys_get. Qed.

Lemma StronglySorted_elem_impl {A} (R R' : A -> A -> Prop) (l : list A) :
  (forall x y, x ∈ l -> y ∈ l -> R x y -> R' x y) ->
  StronglySorted R l -> StronglySorted R' l.
Proof.
  induction l as [|x l IH]; intros Himpl Hs; [constructor|].
  apply StronglySorted_inv in Hs as [Hl Hx].
  constructor.
  - apply IH; [|done]. intros y z Hy Hz. apply Himpl; apply elem_of_cons; by right.
  - apply Forall_forall. intros y Hy. apply Himpl.
    + apply elem_of_cons. by left.
    + apply elem_of_cons. by right.
    + rewrite Forall_forall in Hx. by apply Hx.
Qed.

Lemma filter_ext_elem {A} (P Q : A -> Prop)
    `{!forall x, Decision (P x)} `{!forall x, Decision (Q x)} (l : list A) :
  (forall x, x ∈ l -> P x <-> Q x) -> filter P l = filter Q l.
Proof.
  induction l as [|x l IH]; intros Hpq; [done|].
  rewrite !filter_cons.
  assert (P x <-> Q x) as Hx by (apply Hpq, elem_of_cons; by left).
  rewrite IH by (intros y Hy; apply Hpq, elem_of_cons; by right).
  destruct (decide (P x)) as [HP|HP], (decide (Q x)) as [HQ|HQ]; try done;
    exfalso; [apply HQ, Hx, HP|apply HP, Hx, HQ].
Qed.

(** What [sorted(l, key=get_language)] yields on a list of catalog
    codes: a stable rearrangement in the order of the titles. *)
Lemma sorted_by_title (l : list string) :
  (forall code, code ∈ l -> code ∈ Py.dict_keys _languages) ->
  exists codes,
    Py.sorted get_language l = Py.Returned codes /\
    codes ≡ₚ l /\
    StronglySorted title_le codes /\
    (forall title,
       filter (fun code => get_language code = Some title) codes
       = filter (fun code => get_language code = Some title) l).
Proof.
  intros Hl.
  assert (forall code, code ∈ l -> is_Some (get_language code)) as Hsome.
  { intros code Hc. by apply get_language_is_Some, Hl. }
  eexists. split; [by apply sorted_returns|].
  set (key := fun x => default EmptyString (get_language x)).
  split; [apply sort_by_perm|]. split.
  - apply (StronglySorted_elem_impl (key_le key)); [|apply sort_by_sorted].
    intros x y Hx Hy Hxy.
    rewrite sort_by_perm in Hx, Hy.
    destruct (Hsome x Hx) as [tx Htx], (Hsome y Hy) as [ty Hty].
    exists tx, ty. unfold key_le, key in Hxy. rewrite Htx, Hty in Hxy. done.
  - intros title.
    assert (forall l' : list string, (forall c, c ∈ l' -> is_Some (get_language c)) ->
              filter (fun code => get_language code = Some title) l'
              = filter (fun code => key code = title) l') as Hfilter.
    { intros l' Hl'. apply filter_ext_elem. intros c Hc.
      destruct (Hl' c Hc) as [t Ht]. unfold key. rewrite Ht. simpl.
      split; [by intros [= ->]|by intros ->]. }
    rewrite !Hfilter; [apply sort_by_stable|done|].
    intros c Hc. apply Hsome. by rewrite sort_by_perm in Hc.
Qed.

(** C7: when the translation keeps the catalog's titles apart, the
    table from codes to display names is injective, and
    [get_language_code] maps the display name of every catalog code back
    to that code. *)
Theorem get_language_code_left_inverse :
  (forall t1 t2,
     t1 ∈ catalog_entries.*2 -> t2 ∈ catalog_entries.*2 ->
     gettext t1 = gettext t2 -> t1 = t2) ->
  (forall c1 c2,
     c1 ∈ Py.dict_keys _languages -> c2 ∈ Py.dict_keys _languages ->
     get_language c1 = get_language c2 -> c1 = c2) /\
  (forall code,
     code ∈ Py.dict_keys _languages ->
     get_language_code (get_language code) = Some code).
Proof.
  intros Hinj.
  assert (NoDup (Py.dict_values _languages)) as Hvals.
  { replace (Py.dict_values _languages) with (gettext <$> catalog_entries.*2).
    2:{ rewrite languages_eq. unfold Py.dict_values. rewrite <- !list_fmap_compose.
        apply list_fmap_ext. by intros i [c t] _. }
    apply NoDup_fmap_2_strong; [|apply catalog_titles_NoDup].
    intros t1 t2 H1 H2 Heq. by apply Hinj. }
  assert (forall code, code ∈ Py.dict_keys _languages ->
            exists title, get_language code = Some title /\ (code, title) ∈ _languages)
    as Hentry.
  { intros code Hc. destruct (get_language_is_Some code Hc) as [title Ht].
    exists title. split; [done|]. by apply dict_get_elem_of. }
  split.
  - intros c1 c2 H1 H2 Heq.
    destruct (Hentry c1 H1) as (t1 & Ht1 & Hin1), (Hentry c2 H2) as (t2 & Ht2 & Hin2).
    assert (t1 = t2) as -> by congruence.
    by eapply dict_values_inj.
  - intros code Hc. destruct (Hentry code Hc) as (title & Ht & Hin).
    rewrite Ht. unfold get_language_code.
    revert Hvals Hin. generalize _languages as d.
    induction d as [|[c t] d IH]; intros Hvals Hin; [by apply elem_of_nil in Hin|].
    simpl. destruct (decide (Some t = Some title)) as [[= ->]|Hne].
    + f_equal. eapply dict_values_inj; [exact Hvals| |exact Hin].
      apply elem_of_cons. by left.
    + apply elem_of_cons in Hin as [[= -> ->]|Hin]; [done|].
      apply IH; [|done]. unfold Py.dict_values in Hvals. simpl in Hvals.
      by apply NoDup_cons in Hvals as [_ ?].
Qed.

(** ** The cached listing *)

Lemma get_downloaded_codes_refresh (force : bool) (s : state) :
  _need_update_cache s || force = true ->
  directory_exists tessdata_dir s = true ->
  get_downloaded_codes force s
  = (set_need_update_cache false
       (set_downloaded_codes (stem <$> listing tessdata_dir s) s),
     Py.sorted get_language (filter recognized (stem <$> listing tessdata_dir s))).
Proof.
  intros Hc Hd. unfold get_downloaded_codes, os_listdir. monad_unfold. by rewrite Hc, Hd.
Qed.

(** Listing a data directory that does not exist raises before
    anything is stored. *)
Lemma get_downloaded_codes_missing (force : bool) (s : state) :
  _need_update_cache s || force = true ->
  directory_exists tessdata_dir s = false ->
  get_downloaded_codes force s = (s, Py.Raised (missing_directory_error tessdata_dir s)).
Proof.
  intros Hc Hd. unfold get_downloaded_codes, os_listdir. monad_unfold. by rewrite Hc, Hd.
Qed.

Lemma get_downloaded_codes_cached (force : bool) (s : state) :
  _need_update_cache s || force = false ->
  get_downloaded_codes force s
  = (s, Py.sorted get_language (filter recognized (_downloaded_codes s))).
Proof.
  intros Hc. unfold get_downloaded_codes. monad_unfold. by rewrite Hc.
Qed.

(** Unless it lists a missing directory, the call leaves the cache
    valid and answers from the codes it has just stored or kept. *)
Lemma get_downloaded_codes_from_cache (force : bool) (s : state) :
  lists_missing_directory force s = false ->
  _need_update_cache (get_downloaded_codes force s).1 = false /\
  _downloaded_codes (get_downloaded_codes force s).1 = listed_codes force s /\
  (get_downloaded_codes force s).2
  = Py.sorted get_language
      (filter recognized (_downloaded_codes (get_downloaded_codes force s).1)).
Proof.
  unfold lists_missing_directory, listed_codes.
  destruct (_need_update_cache s || force) eqn:Hc; simpl.
  - intros Hd%negb_false_iff. by rewrite get_downloaded_codes_refresh.
  - intros _. rewrite get_downloaded_codes_cached by done. simpl.
    by apply orb_false_elim in Hc as [-> _].
Qed.

Lemma filter_recognized (l : list string) :
  filter recognized l = filter (fun code => code ∈ Py.dict_keys _languages) l.
Proof.
  apply list_filter_iff. intros code. unfold recognized.
  rewrite Is_true_true. apply dict_contains_keys.
Qed.

(** The outcome of a call that does not list a missing directory. *)
Lemma get_downloaded_codes_outcome (force : bool) (s : state) :
  lists_missing_directory force s = false ->
  exists codes,
    get_downloaded_codes force s = ((get_downloaded_codes force s).1, Py.Returned codes) /\
    codes ≡ₚ filter (fun code => code ∈ Py.dict_keys _languages) (listed_codes force s) /\
    StronglySorted title_le codes.
Proof.
  intros Hd.
  destruct (get_downloaded_codes_from_cache force s Hd) as (_ & Hcodes & Hres).
  destruct (sorted_by_title (filter recognized (listed_codes force s)))
    as (codes & Hsorted & Hperm & Hord & _).
  { intros code Hc. rewrite filter_recognized in Hc.
    by apply list_elem_of_filter in Hc as [? _]. }
  exists codes. split; [|split; [|exact Hord]].
  - rewrite <- Hsorted, <- Hcodes, <- Hres. by destruct (get_downloaded_codes force s).
  - by rewrite <- filter_recognized.
Qed.



(** [get_available_codes] on any translation: every catalog code once,
    in the order of the titles. *)
Lemma get_available_codes_by_title :
  exists codes,
    get_available_codes = Py.Returned codes /\
    codes ≡ₚ catalog_entries.*1 /\
    NoDup codes /\
    StronglySorted title_le codes.
Proof.
  destruct (sorted_by_title (Py.dict_keys _languages)) as (codes & Hs & Hperm & Hord & _);
    [done|].
  exists codes. split; [exact Hs|].
  rewrite languages_keys in Hperm.
  split; [done|]. split; [|done].
  rewrite Hperm. apply catalog_codes_NoDup.
Qed.

(** * Further properties of the methods *)

(** ** Looking titles up *)

Lemma get_language_code_from_Some (d : Py.dict string) (language : option string)
    (code : string) :
  NoDup (Py.dict_keys d) ->
  get_language_code_from d language = Some code ->
  code ∈ Py.dict_keys d /\ Py.dict_get code d = language.
Proof.
  unfold Py.dict_keys.
  induction d as [|[c t] d IH]; simpl; intros Hnd Hfind; [done|].
  apply NoDup_cons in Hnd as [Hc Hnd].
  destruct (decide (Some t = language)) as [<-|Hne].
  - injection Hfind as ->. split; [apply elem_of_cons; by left|].
    by destruct (decide (code = code)).
  - destruct (IH Hnd Hfind) as [Hin Hget].
    split; [apply elem_of_cons; by right|].
    destruct (decide (c = code)) as [->|]; [done|exact Hget].
Qed.

Lemma get_language_code_from_None (d : Py.dict string) (language : option string)
    (code : string) :
  get_language_code_from d language = None ->
  code ∈ Py.dict_keys d -> Py.dict_get code d <> language.
Proof.
  unfold Py.dict_keys.
  induction d as [|[c t] d IH]; simpl; intros Hfind Hin; [by apply elem_of_nil in Hin|].
  destruct (decide (Some t = language)) as [|Hne]; [done|].
  destruct (decide (c = code)) as [->|Hc]; [done|].
  apply IH; [done|]. apply elem_of_cons in Hin as [?|?]; [congruence|done].
Qed.

(** X1: a code that [get_language_code] returns is a catalog code whose
    display name is the name asked for; [None] is returned exactly when
    no catalog code has that display name, which is always so when the
    argument is [None]. *)
Theorem get_language_code_finds_title (language : option string) :
  match get_language_code language with
  | Some code => code ∈ Py.dict_keys _languages /\ get_language code = language
  | None =>
      forall code, code ∈ Py.dict_keys _languages -> get_language code <> language
  end /\
  get_language_code None = None.
Proof.
  split.
  - unfold get_language_code, get_language.
    destruct (get_language_code_from _languages language) as [code|] eqn:Hfind.
    + apply get_language_code_from_Some; [apply languages_keys_NoDup|done].
    + intros code. by apply get_language_code_from_None.
  - unfold get_language_code. generalize _languages as d.
    induction d as [|[c t] d IH]; simpl; [done|].
    by destruct (decide (Some t = None)).
Qed.

#[local] Instance str_le_antisymm : AntiSymm (=) str_le.
Proof. intros a b Hab Hba. by apply String.leb_antisym. Qed.

Lemma dict_keys_values (d : Py.dict string) :
  NoDup (Py.dict_keys d) ->
  (fun code => default EmptyString (Py.dict_get code d)) <$> Py.dict_keys d
  = Py.dict_values d.
Proof.
  intros Hnd. unfold Py.dict_keys, Py.dict_values. rewrite <- list_fmap_compose.
  apply list_fmap_ext. intros i [c t] Hi. simpl.
  rewrite (dict_get_lookup c t d Hnd); [done|].
  by eapply list_elem_of_lookup_2.
Qed.

(** X2: the sorted display names and the codes sorted by display name
    line up: the title at each position of [get_available_languages] is
    the display name of the code at the same position of
    [get_available_codes]. *)
Theorem available_languages_match_codes :
  exists titles codes,
    get_available_languages = Py.Returned titles /\
    get_available_codes = Py.Returned codes /\
    Some <$> titles = get_language <$> codes /\
    StronglySorted str_le titles /\
    titles ≡ₚ Py.dict_values _languages.
Proof.
  set (key := fun code => default EmptyString (get_language code)).
  assert (forall code, code ∈ Py.dict_keys _languages -> is_Some (get_language code))
    as Hsome by apply get_language_is_Some.
  exists (Py.sort_by (fun t => t) (Py.dict_values _languages)),
         (Py.sort_by key (Py.dict_keys _languages)).
  assert (StronglySorted str_le (Py.sort_by (fun t => t) (Py.dict_values _languages)))
    as Hsorted by apply (sort_by_sorted (fun t : string => t)).
  split; [|split; [|split; [|split]]].
  - unfold get_available_languages. rewrite sorted_returns; [done|]. by eexists.
  - unfold get_available_codes. by rewrite sorted_returns.
  - transitivity (Some <$> (key <$> Py.sort_by key (Py.dict_keys _languages))).
    + f_equal. apply (StronglySorted_unique str_le); [done| |].
      * apply (StronglySorted_fmap _ (key_le key)); [by intros x y|].
        apply sort_by_sorted.
      * rewrite !sort_by_perm. unfold key, get_language.
        by rewrite dict_keys_values by apply languages_keys_NoDup.
    + rewrite <- list_fmap_compose. apply list_fmap_ext. intros i code Hi.
      assert (code ∈ Py.dict_keys _languages) as Hin.
      { rewrite <- (sort_by_perm key). by eapply list_elem_of_lookup_2. }
      destruct (Hsome code Hin) as [t Ht]. simpl. unfold key. by rewrite Ht.
  - exact Hsorted.
  - apply sort_by_perm.
Qed.

(** ** The display names of the downloaded packs *)

Lemma all_Some_fmap {A} (l : list (option A)) :
  Forall is_Some l -> exists l', l = Some <$> l'.
Proof.
  induction 1 as [|x l [a ->] _ [l' ->]]; [by exists []|]. by exists (a :: l').
Qed.


(** ** Listing what is installed *)

(** What [os.listdir] yields: the names under which the directory
    holds a file or a directory known to exist. *)
Lemma elem_of_listing (dir name : string) (s : state) :
  name ∈ listing dir s <->
  exists path,
    (is_Some (files s !! path) \/ path ∈ directories s) /\
    entry_under dir path = Some name.
Proof.
  unfold listing, listdir_names.
  rewrite elem_of_remove_dups, elem_of_app, elem_of_remove_dups, !list_elem_of_omap. split.
  - intros [(path & Hin & He)|(path & Hin & He)]; exists path; (split; [|done]).
    + left. apply list_elem_of_fmap in Hin as ([p c] & -> & Hin).
      apply elem_of_map_to_list in Hin. by eexists.
    + right. by apply elem_of_elements in Hin.
  - intros (path & [[c Hc]|Hd] & He); [left|right]; exists path; (split; [|done]).
    + apply list_elem_of_fmap. exists (path, c). split; [done|].
      by apply elem_of_map_to_list.
    + by apply elem_of_elements.
Qed.

(** A file right in the directory is held under its own name. *)
Lemma entry_under_file (dir name : string) :
  name <> "" -> Py.contains_char "/" name = false ->
  entry_under dir (Py.os_path_join dir "" +:+ name) = Some name.
Proof.
  intros Hne Hsep. unfold entry_under.
  rewrite strip_prefix_append, before_char_absent by done. by destruct name.
Qed.

(** The directory itself is not held under any name. *)
Lemma entry_under_self (dir : string) : entry_under dir (Py.os_path_join dir "") = None.
Proof.
  unfold entry_under.
  rewrite <- (append_nil_r (Py.os_path_join dir "")) at 2.
  by rewrite strip_prefix_append.
Qed.

(** A directory that holds something exists. *)
Lemma listed_directory_exists (dir name : string) (s : state) :
  name ∈ listing dir s -> directory_exists dir s = true.
Proof.
  intros Hin. unfold directory_exists. apply orb_true_iff. right.
  apply negb_true_iff, bool_decide_eq_false. intros Hnil.
  rewrite Hnil in Hin. by apply elem_of_nil in Hin.
Qed.

(** A directory known to exist under the spelling that [os.path.join]
    gives it exists. *)
Lemma known_directory_exists (dir : string) (s : state) :
  Py.os_path_join dir "" ∈ directories s -> directory_exists dir s = true.
Proof.
  intros Hin. unfold directory_exists. apply orb_true_iff. left.
  apply bool_decide_eq_true, list_elem_of_fmap. exists (Py.os_path_join dir "").
  split; [|by apply elem_of_elements].
  symmetry. apply os_path_join_prefix.
Qed.

(** Every catalog code makes a plain file name whose stem is the code. *)
Lemma catalog_codes_make_pack_names (code : string) :
  code ∈ Py.dict_keys _languages ->
  stem (code +:+ ".traineddata") = code /\
  Py.contains_char "/" (code +:+ ".traineddata") = false.
Proof.
  rewrite languages_keys. revert code. apply Forall_forall.
  apply (bool_decide_unpack _). by vm_compute.
Qed.

Lemma pack_name_nonempty (code : string) : code +:+ ".traineddata" <> "".
Proof. by destruct code. Qed.

Lemma pack_name_plain (code : string) :
  Py.contains_char "/" code = false ->
  Py.contains_char "/" (code +:+ ".traineddata") = false.
Proof. intros Hcode. by rewrite contains_char_append, Hcode. Qed.

(** The pack path of a code without a separator: the directory prefix
    followed by the pack name. *)
Lemma pack_path_plain (code : string) :
  Py.contains_char "/" code = false ->
  Py.os_path_join tessdata_dir (code +:+ ".traineddata")
  = Py.os_path_join tessdata_dir "" +:+ (code +:+ ".traineddata") /\
  Py.directory_prefix (Py.os_path_join tessdata_dir (code +:+ ".traineddata"))
  = Py.os_path_join tessdata_dir "".
Proof.
  intros Hcode. pose proof (pack_name_plain code Hcode) as Hname.
  assert (Py.os_path_join tessdata_dir (code +:+ ".traineddata")
          = Py.os_path_join tessdata_dir "" +:+ (code +:+ ".traineddata")) as Hpath.
  { by rewrite os_path_join_relative by by apply startswith_contains. }
  split; [exact Hpath|]. rewrite Hpath.
  destruct (os_path_join_prefix tessdata_dir) as [[Hnil|Hend] _].
  - rewrite Hnil. simpl. by apply directory_prefix_absent.
  - by apply directory_prefix_append.
Qed.

(** A pack file in the data directory is listed under its name. *)
Lemma pack_file_is_listed (code : string) (s : state) :
  Py.contains_char "/" code = false ->
  is_Some (files s !! Py.os_path_join tessdata_dir (code +:+ ".traineddata")) ->
  code +:+ ".traineddata" ∈ listing tessdata_dir s.
Proof.
  intros Hcode Hfile. apply elem_of_listing.
  exists (Py.os_path_join tessdata_dir (code +:+ ".traineddata")).
  split; [by left|].
  rewrite (proj1 (pack_path_plain code Hcode)).
  apply entry_under_file; [apply pack_name_nonempty|by apply pack_name_plain].
Qed.

(** The pack file of a catalog code shows that the data directory
    exists and puts the code among the recognised stems of its
    listing. *)
Lemma pack_file_gives_stem (code : string) (s : state) :
  code ∈ Py.dict_keys _languages ->
  is_Some (files s !! Py.os_path_join tessdata_dir (code +:+ ".traineddata")) ->
  directory_exists tessdata_dir s = true /\
  code ∈ filter (fun c => c ∈ Py.dict_keys _languages) (stem <$> listing tessdata_dir s).
Proof.
  intros Hcode Hfile.
  destruct (catalog_codes_make_pack_names code Hcode) as [Hstem Hsep].
  assert (Py.contains_char "/" code = false) as Hplain.
  { rewrite contains_char_append in Hsep. by apply orb_false_elim in Hsep as [? _]. }
  pose proof (pack_file_is_listed code s Hplain Hfile) as Hin.
  split; [by eapply listed_directory_exists|].
  apply list_elem_of_filter. split; [done|].
  rewrite <- Hstem at 1. by apply list_elem_of_fmap_2.
Qed.

Lemma existing_directory_is_listed (force : bool) (s : state) :
  directory_exists tessdata_dir s = true -> lists_missing_directory force s = false.
Proof. intros Hd. unfold lists_missing_directory. rewrite Hd. apply andb_false_r. Qed.

(** X4: a catalog code whose pack file is in the data directory is
    among the codes that [get_downloaded_codes] returns whenever the
    call lists the directory (the cache is invalid or [force] is set). *)
Theorem installed_pack_is_listed (code content : string) (force : bool) (s : state) :
  code ∈ Py.dict_keys _languages ->
  files s !! Py.os_path_join tessdata_dir (code +:+ ".traineddata") = Some content ->
  _need_update_cache s || force = true ->
  exists codes s',
    get_downloaded_codes force s = (s', Py.Returned codes) /\ code ∈ codes.
Proof.
  intros Hcode Hfile Hlist.
  destruct (pack_file_gives_stem code s Hcode) as [Hdir Hstem]; [by eexists|].
  destruct (get_downloaded_codes_outcome force s) as (codes & Hrun & Hperm & _);
    [by apply existing_directory_is_listed|].
  exists codes, (get_downloaded_codes force s).1. split; [exact Hrun|].
  rewrite Hperm. unfold listed_codes. by rewrite Hlist.
Qed.

(** X5: after [remove_language] has removed the pack of a code
    (without a separator), the data directory is still there, and the
    next [get_downloaded_codes] returns without the code, provided
    nothing else that the data directory holds, be it another file or a
    directory, goes under a name whose stem is the code. *)
Theorem removed_pack_is_not_listed (code content : string) (force : bool) (s : state) :
  Py.contains_char "/" code = false ->
  files s !! Py.os_path_join tessdata_dir (code +:+ ".traineddata") = Some content ->
  (forall path name,
     is_Some (files s !! path) /\
       path <> Py.os_path_join tessdata_dir (code +:+ ".traineddata") \/
     path ∈ directories s ->
     entry_under tessdata_dir path = Some name -> stem name <> code) ->
  exists s1 codes s2,
    remove_language code s = (s1, Py.Returned tt) /\
    directory_exists tessdata_dir s1 = true /\
    get_downloaded_codes force s1 = (s2, Py.Returned codes) /\
    code ∉ codes.
Proof.
  intros Hcode Hfile Hothers.
  destruct (pack_path_plain code Hcode) as [_ Hprefix].
  set (path := Py.os_path_join tessdata_dir (code +:+ ".traineddata")) in *.
  set (s1 := (remove_language code s).1).
  assert (remove_language code s = (s1, Py.Returned tt)) as Hrun.
  { unfold s1, remove_language, os_remove, emit. monad_unfold. fold path.
    by rewrite Hfile. }
  assert (_need_update_cache s1 = true /\ files s1 = delete path (files s) /\
          directories s1 = {[ Py.os_path_join tessdata_dir "" ]} ∪ directories s)
    as (Hflag & Hfs & Hdirs).
  { unfold s1, remove_language, os_remove, emit. monad_unfold. fold path.
    rewrite Hfile. simpl. by rewrite Hprefix. }
  assert (directory_exists tessdata_dir s1 = true) as Hdir.
  { apply known_directory_exists. rewrite Hdirs.
    apply elem_of_union_l. by apply elem_of_singleton. }
  destruct (get_downloaded_codes_outcome force s1) as (codes & Hget & Hperm & _);
    [by apply existing_directory_is_listed|].
  exists s1, codes, (get_downloaded_codes force s1).1.
  split; [exact Hrun|]. split; [exact Hdir|]. split; [exact Hget|].
  rewrite Hperm. intros [_ Hin]%list_elem_of_filter.
  unfold listed_codes in Hin. rewrite Hflag in Hin. simpl in Hin.
  apply list_elem_of_fmap in Hin as (name & Hstem & Hname).
  apply elem_of_listing in Hname as (other & Hother & Hentry).
  rewrite Hfs, Hdirs in Hother.
  destruct Hother as [[c Hc]|[Hself%elem_of_singleton|Hdir']%elem_of_union].
  - apply lookup_delete_Some in Hc as [Hne Hc].
    apply (Hothers other name); [left; split; [by eexists|done]|done|done].
  - rewrite Hself, entry_under_self in Hentry. done.
  - apply (Hothers other name); [by right|done|done].
Qed.

(** ** Transfers *)

Lemma received_received (filename d1 d2 : string) (l1 l2 : list signal) (s : state) :
  received filename d2 l2 (received filename d1 l1 s) = received filename d2 (l1 ++ l2) s.
Proof.
  destruct s. unfold received, set_emitted, set_files. simpl.
  by rewrite insert_insert_eq, <- app_assoc.
Qed.

Lemma received_same (filename data : string) (s : state) :
  files s !! filename = Some data -> received filename data [] s = s.
Proof.
  intros Hfile. destruct s. unfold received, set_emitted, set_files. simpl in *.
  by rewrite insert_id, app_nil_r.
Qed.

Lemma progress_signals_S (hook_code : option string) (size first : Z) (n : nat) :
  progress_signals hook_code size first (S n)
  = progress_signals hook_code size first 1
    ++ progress_signals hook_code size (first + 1) n.
Proof.
  destruct hook_code as [code|]; [|done]. unfold progress_signals. simpl. f_equal.
  rewrite <- fmap_S_seq, <- list_fmap_compose. apply list_fmap_ext.
  intros i j _. simpl. do 4 f_equal. lia.
Qed.

(** One call of the hook of [download_begin] for a block number at
    which the quotient is within the range of a float. *)
Lemma call_hook_emits (hook_code : option string) (bn size : Z) (s : state) :
  (is_Some hook_code -> size <> 0) ->
  0 <= bn + 1 -> (bn + 1) * 819200 < 2 ^ 1023 ->
  call_hook (update_progress <$> hook_code) (bn + 1) 8192 size s
  = (set_emitted (fun l => l ++ progress_signals hook_code size bn 1) s, Py.Returned tt).
Proof.
  intros Hsize Hbn Hmax.
  destruct hook_code as [code|]; simpl.
  - unfold update_progress, emit. monad_unfold.
    rewrite int_truediv_returns; [done|by apply Hsize|].
    assert (size <> 0) as Hne by (apply Hsize; by eexists).
    replace ((bn + 1) * 8192 * 100) with ((bn + 1) * 819200) by lia.
    rewrite (Z.abs_eq ((bn + 1) * 819200)) by lia.
    assert (0 < 2 ^ 1023) by done. nia.
  - destruct s. unfold set_emitted. simpl. by rewrite app_nil_r.
Qed.

(** The copy loop on reads that yield non-empty blocks: the blocks are
    appended to the file, one signal per block is emitted when there is
    a hook, and the loop goes on with what follows. *)
Lemma copy_blocks_blocks (hook_code : option string) (blocks : list string)
    (tail : list read_result) (filename prev : string) (size read bn : Z) (s : state) :
  (is_Some hook_code -> size <> 0) ->
  0 <= bn -> (bn + Z.of_nat (length blocks)) * 819200 < 2 ^ 1023 ->
  Forall (fun block => block <> "") blocks ->
  files s !! filename = Some prev ->
  copy_blocks ((Block <$> blocks) ++ tail) filename (update_progress <$> hook_code)
    8192 size read bn s
  = copy_blocks tail filename (update_progress <$> hook_code) 8192 size
      (read + total_length blocks) (bn + Z.of_nat (length blocks))
      (received filename (prev +:+ joined blocks)
         (progress_signals hook_code size bn (length blocks)) s).
Proof.
  intros Hsize Hbn Hmax Hblocks. revert prev read bn s Hbn Hmax.
  induction Hblocks as [|block blocks Hblock _ IH]; intros prev read bn s Hbn Hmax Hfile.
  - simpl. rewrite !Z.add_0_r, append_nil_r.
    replace (progress_signals hook_code size bn 0) with (@nil signal)
      by by destruct hook_code.
    by rewrite received_same.
  - csimpl. destruct block as [|a block]; [done|].
    set (data := String a block) in *.
    set (s_w := set_files
                  (fun fs => <[filename := default "" (fs !! filename) +:+ data]> fs) s).
    assert (call_hook (update_progress <$> hook_code) (bn + 1) 8192 size s_w
            = (received filename (prev +:+ data)
                 (progress_signals hook_code size bn 1) s, Py.Returned tt)) as Hhook.
    { rewrite (call_hook_emits hook_code bn size s_w Hsize)
        by (simpl length in Hmax; lia).
      unfold s_w, received. destruct s. unfold set_emitted, set_files. simpl in *.
      by rewrite Hfile. }
    unfold mbind, M_bind, bind, write_block, modify. fold s_w. rewrite Hhook.
    rewrite (IH (prev +:+ data)).
    2:{ lia. }
    2:{ simpl length in Hmax. lia. }
    2:{ unfold received. simpl. apply lookup_insert_eq. }
    rewrite received_received, <- progress_signals_S, append_assoc.
    f_equal; simpl; lia.
Qed.

Lemma urlretrieve_opened (url filename : string) (hook : option (Z -> Z -> Z -> M unit))
    (r : reply) (s : state) :
  network (length (requests s)) url = Some r ->
  urlretrieve url filename hook s
  = retrieve_response r filename hook
      (set_requests (fun l => l ++ [(url, filename)]) s).
Proof. intros Hr. unfold urlretrieve. monad_unfold. by rewrite Hr. Qed.

Lemma urlretrieve_unreachable (url filename : string)
    (hook : option (Z -> Z -> Z -> M unit)) (s : state) :
  network (length (requests s)) url = None ->
  urlretrieve url filename hook s
  = (set_requests (fun l => l ++ [(url, filename)]) s, Py.Raised Py.URLError).
Proof. intros Hr. unfold urlretrieve. monad_unfold. by rewrite Hr. Qed.

(** The state after the opening call of the hook and the copy of
    [blocks], and the reads that are left. *)
Lemma retrieve_response_blocks (hook_code : option string) (r : reply)
    (blocks : list string) (tail : list read_result) (filename : string) (s : state) :
  (is_Some hook_code -> default (-1) (content_length r) <> 0) ->
  Z.of_nat (length blocks) * 819200 < 2 ^ 1023 ->
  reads r = (Block <$> blocks) ++ tail ->
  Forall (fun block => block <> "") blocks ->
  retrieve_response r filename (update_progress <$> hook_code) s
  = (let size := default (-1) (content_length r) in
     read ← copy_blocks tail filename (update_progress <$> hook_code) 8192 size
              (total_length blocks) (Z.of_nat (length blocks));
     if (0 <=? size) && (read <? size) then raise Py.ContentTooShortError else mret tt)
      (received filename (joined blocks)
         (progress_signals hook_code (default (-1) (content_length r)) (-1)
            (S (length blocks))) s).
Proof.
  intros Hsize Hmax Hreads Hblocks. unfold retrieve_response. rewrite Hreads.
  set (size := default (-1) (content_length r)) in *.
  set (s_o := set_files (insert filename "") s).
  assert (call_hook (update_progress <$> hook_code) 0 8192 size s_o
          = (received filename "" (progress_signals hook_code size (-1) 1) s,
             Py.Returned tt)) as Hhook.
  { pose proof (call_hook_emits hook_code (-1) size s_o Hsize) as Hcall.
    change (-1 + 1) with 0 in Hcall.
    rewrite Hcall by done. reflexivity. }
  cbv zeta. unfold open_wb. unfold mbind at 1 2 3. unfold M_bind, bind, modify.
  fold s_o. rewrite Hhook.
  rewrite (copy_blocks_blocks hook_code blocks tail filename "" size 0 0);
    [|done|done|by rewrite Z.add_0_l|done|].
  2:{ unfold received. simpl. apply lookup_insert_eq. }
  rewrite received_received, <- progress_signals_S. simpl. reflexivity.
Qed.

Lemma progress_signals_from_zero (code : string) (size : Z) (n : nat) :
  progress_signals (Some code) size (-1) (S n)
  = (fun i : nat =>
       Downloading code (Percent (Py.int_quotient (Z.of_nat i * 8192 * 100) size)))
      <$> seq 0 (S n).
Proof.
  unfold progress_signals. rewrite <- fmap_S_seq, <- list_fmap_compose.
  apply list_fmap_ext. intros i j _. simpl. do 4 f_equal. lia.
Qed.

Lemma urlretrieve_complete (hook_code : option string) (url filename : string)
    (r : reply) (blocks : list string) (s : state) :
  network (length (requests s)) url = Some r ->
  reads r = Block <$> blocks ->
  Forall (fun block => block <> "") blocks ->
  (is_Some hook_code -> default (-1) (content_length r) <> 0) ->
  Z.of_nat (length blocks) * 819200 < 2 ^ 1023 ->
  default (-1) (content_length r) < 0 \/
    default (-1) (content_length r) <= total_length blocks ->
  urlretrieve url filename (update_progress <$> hook_code) s
  = (received filename (joined blocks)
       (progress_signals hook_code (default (-1) (content_length r)) (-1)
          (S (length blocks)))
       (set_requests (fun l => l ++ [(url, filename)]) s),
     Py.Returned tt).
Proof.
  intros Hr Hreads Hblocks Hsize Hmax Hlen.
  rewrite (urlretrieve_opened _ _ _ r) by done.
  rewrite (retrieve_response_blocks hook_code r blocks []); [|done|done| |done].
  2:{ by rewrite app_nil_r. }
  cbv zeta. monad_unfold. simpl.
  destruct (_ && _) eqn:E; [|done].
  apply andb_prop in E as [E1 E2]. apply Z.leb_le in E1. apply Z.ltb_lt in E2. lia.
Qed.

Lemma urlretrieve_broken (hook_code : option string) (url filename : string)
    (r : reply) (blocks : list string) (rest : list read_result) (s : state) :
  network (length (requests s)) url = Some r ->
  reads r = (Block <$> blocks) ++ ReadFails :: rest ->
  Forall (fun block => block <> "") blocks ->
  (is_Some hook_code -> default (-1) (content_length r) <> 0) ->
  Z.of_nat (length blocks) * 819200 < 2 ^ 1023 ->
  urlretrieve url filename (update_progress <$> hook_code) s
  = (received filename (joined blocks)
       (progress_signals hook_code (default (-1) (content_length r)) (-1)
          (S (length blocks)))
       (set_requests (fun l => l ++ [(url, filename)]) s),
     Py.Raised Py.ConnectionError).
Proof.
  intros Hr Hreads Hblocks Hsize Hmax.
  rewrite (urlretrieve_opened _ _ _ r) by done.
  by rewrite (retrieve_response_blocks hook_code r blocks (ReadFails :: rest)).
Qed.



(** ** What a download emits and what it leaves alone *)

Lemma emits_only_silent {A} (P : signal -> Prop) (m : M A) :
  preserves emitted m -> emits_only P m.
Proof. intros Hm s. exists []. by rewrite Hm, app_nil_r. Qed.

Lemma emits_only_bind {A B} (P : signal -> Prop) (m : M A) (k : A -> M B) :
  emits_only P m -> (forall a, emits_only P (k a)) -> emits_only P (m ≫= k).
Proof.
  intros Hm Hk s. monad_unfold. destruct (Hm s) as (l1 & H1 & HP1).
  destruct (m s) as [s1 [a|e]]; simpl in *; [|by exists l1].
  destruct (Hk a s1) as (l2 & H2 & HP2). exists (l1 ++ l2).
  split; [by rewrite H2, H1, <- app_assoc|]. by apply Forall_app.
Qed.

Lemma update_progress_emits (code : string) (bn bs total : Z) :
  emits_only (is_progress_of code) (update_progress code bn bs total).
Proof.
  intros s. unfold update_progress, emit. monad_unfold.
  destruct (Py.int_truediv _ total) as [p|e]; simpl.
  - eexists [_]. split; [done|]. repeat constructor. by eexists.
  - exists []. by rewrite app_nil_r.
Qed.

Lemma copy_blocks_emits (code : string) (rs : list read_result) (filename : string)
    (bs size read bn : Z) :
  emits_only (is_progress_of code)
    (copy_blocks rs filename (Some (update_progress code)) bs size read bn).
Proof.
  revert read bn. induction rs as [|[data|] rs IH]; intros read bn; simpl.
  - apply emits_only_silent, preserves_ret.
  - destruct data as [|a data]; [apply emits_only_silent, preserves_ret|].
    apply emits_only_bind.
    { apply emits_only_silent, preserves_modify. by intros ?. }
    intros _. apply emits_only_bind; [apply update_progress_emits|]. intros _. apply IH.
  - apply emits_only_silent, preserves_raise.
Qed.

Lemma urlretrieve_emits (code url filename : string) :
  emits_only (is_progress_of code)
    (urlretrieve url filename (Some (update_progress code))).
Proof.
  unfold urlretrieve.
  apply emits_only_bind; [apply emits_only_silent, preserves_get|intros s0].
  apply emits_only_bind.
  { apply emits_only_silent, preserves_modify. by intros ?. }
  intros _. destruct (network _ url) as [r|]; [|apply emits_only_silent, preserves_raise].
  unfold retrieve_response.
  apply emits_only_bind.
  { apply emits_only_silent, preserves_modify. by intros ?. }
  intros _. apply emits_only_bind; [apply update_progress_emits|]. intros _.
  apply emits_only_bind; [apply copy_blocks_emits|]. intros read.
  apply emits_only_silent. destruct (_ && _); [apply preserves_raise|apply preserves_ret].
Qed.

(** X8: everything [download_begin] emits is a ['downloading'] signal
    of its own code with a computed percentage, and all of it is emitted
    during the attempt at the best repository: the attempt at the
    fallback repository reports no progress. *)
Theorem download_begin_signals (code : string) (s : state) :
  (exists l,
     emitted (download_begin code s).1 = emitted s ++ l /\
     Forall (is_progress_of code) l) /\
  emitted (download_begin code s).1
  = emitted
      (urlretrieve (tessdata_best_url +:+ code +:+ ".traineddata")
         (Py.os_path_join tessdata_dir (code +:+ ".traineddata"))
         (Some (update_progress code)) s).1.
Proof.
  assert (emitted (download_begin code s).1
          = emitted
              (urlretrieve (tessdata_best_url +:+ code +:+ ".traineddata")
                 (Py.os_path_join tessdata_dir (code +:+ ".traineddata"))
                 (Some (update_progress code)) s).1) as Hsame.
  { unfold download_begin. monad_unfold.
    destruct (urlretrieve _ _ (Some _) s) as [s1 [[]|e1]]; [done|]. simpl.
    pose proof (urlretrieve_preserves emitted
                  (tessdata_url +:+ code +:+ ".traineddata")
                  (Py.os_path_join tessdata_dir (code +:+ ".traineddata")) None) as Hsilent.
    specialize (Hsilent (fun _ _ => eq_refl) (fun _ _ => eq_refl)
                  (fun h Hh => ltac:(discriminate)) s1).
    by destruct (urlretrieve _ _ None s1) as [s2 [[]|e2]]. }
  split; [|exact Hsame]. rewrite Hsame. apply urlretrieve_emits.
Qed.

Lemma copy_blocks_other_path (path : string) (rs : list read_result) (filename : string)
    (hook : option (Z -> Z -> Z -> M unit)) (bs size read bn : Z) :
  path <> filename ->
  (forall h, hook = Some h -> forall a b c, preserves (fun s => files s !! path) (h a b c)) ->
  preserves (fun s => files s !! path) (copy_blocks rs filename hook bs size read bn).
Proof.
  intros Hne Hh. revert read bn.
  induction rs as [|[data|] rs IH]; intros read bn; simpl.
  - apply preserves_ret.
  - destruct data as [|a data]; [apply preserves_ret|].
    apply preserves_bind.
    { apply preserves_modify. intros s. simpl. by apply lookup_insert_ne. }
    intros _. apply preserves_bind; [by apply call_hook_preserves|intros _]. apply IH.
  - apply preserves_raise.
Qed.

Lemma urlretrieve_other_path (path url filename : string)
    (hook : option (Z -> Z -> Z -> M unit)) :
  path <> filename ->
  (forall h, hook = Some h -> forall a b c, preserves (fun s => files s !! path) (h a b c)) ->
  preserves (fun s => files s !! path) (urlretrieve url filename hook).
Proof.
  intros Hne Hh. unfold urlretrieve.
  apply preserves_bind; [apply preserves_get|intros s0].
  apply preserves_bind; [apply preserves_modify; by intros ?|intros _].
  destruct (network _ url) as [r|]; [|apply preserves_raise].
  unfold retrieve_response.
  apply preserves_bind.
  { apply preserves_modify. intros s. simpl. by apply lookup_insert_ne. }
  intros _. apply preserves_bind; [by apply call_hook_preserves|intros _].
  apply preserves_bind; [by apply copy_blocks_other_path|intros read].
  destruct (_ && _); [apply preserves_raise|apply preserves_ret].
Qed.

(** X9: whatever the network does, [download_begin] changes no file
    other than the pack file of its code, and it leaves
    [loading_languages], the cached codes, the invalidation flag and the
    dispatched jobs as they were. *)
Theorem download_begin_touches_only_the_pack (code : string) (s : state) :
  (forall path,
     path <> Py.os_path_join tessdata_dir (code +:+ ".traineddata") ->
     files (download_begin code s).1 !! path = files s !! path) /\
  loading_languages (download_begin code s).1 = loading_languages s /\
  _downloaded_codes (download_begin code s).1 = _downloaded_codes s /\
  _need_update_cache (download_begin code s).1 = _need_update_cache s /\
  dispatched (download_begin code s).1 = dispatched s.
Proof.
  assert (forall B (proj : state -> B),
            (forall url hook,
               (forall h, hook = Some h -> forall a b c, preserves proj (h a b c)) ->
               preserves proj
                 (urlretrieve url (Py.os_path_join tessdata_dir (code +:+ ".traineddata"))
                    hook)) ->
            (forall a b c, preserves proj (update_progress code a b c)) ->
            proj (download_begin code s).1 = proj s) as Hframe.
  { intros B proj Hurl Hhook. revert s. change (preserves proj (download_begin code)).
    unfold download_begin.
    apply preserves_try_except; [|intros e1; apply preserves_try_except].
    - apply preserves_bind; [|intros _; apply preserves_ret].
      apply Hurl. by intros h [= <-].
    - apply preserves_bind; [|intros _; apply preserves_ret].
      apply Hurl. intros h Hh. discriminate.
    - intros e2. apply preserves_ret. }
  split; [|repeat split].
  - intros path Hne. apply (Hframe _ (fun s => files s !! path)).
    + intros url hook Hh. by apply urlretrieve_other_path.
    + intros a b c. by apply update_progress_preserves.
  - apply (Hframe _ loading_languages).
    + intros url hook Hh. by apply urlretrieve_preserves.
    + intros a b c. by apply update_progress_preserves.
  - apply (Hframe _ _downloaded_codes).
    + intros url hook Hh. by apply urlretrieve_preserves.
    + intros a b c. by apply update_progress_preserves.
  - apply (Hframe _ _need_update_cache).
    + intros url hook Hh. by apply urlretrieve_preserves.
    + intros a b c. by apply update_progress_preserves.
  - apply (Hframe _ dispatched).
    + intros url hook Hh. by apply urlretrieve_preserves.
    + intros a b c. by apply update_progress_preserves.
Qed.

(** ** Completing a download *)

(** X10: [download_done] called with a non-empty code that
    [loading_languages] does not hold raises [KeyError] after it has set
    the invalidation flag and before it emits anything.  So of two
    completions for the same code the first removes the entry and emits
    ['downloaded'], and the second raises. *)
Theorem download_done_missing_entry (code : string) (s : state) :
  code <> "" ->
  (loading_languages s !! code = None ->
   download_done (Some code) s = (set_need_update_cache true s, Py.Raised Py.KeyError)) /\
  (is_Some (loading_languages s !! code) ->
   exists s1 s2,
     download_done (Some code) s = (s1, Py.Returned tt) /\
     loading_languages s1 = delete code (loading_languages s) /\
     emitted s1 = emitted s ++ [Downloaded (Some code)] /\
     download_done (Some code) s1 = (s2, Py.Raised Py.KeyError) /\
     emitted s2 = emitted s1 /\
     loading_languages s2 = loading_languages s1).
Proof.
  intros Hcode.
  assert (Py.truthy (Some code) = true) as Htruthy by by destruct code.
  assert (forall s0, loading_languages s0 !! code = None ->
            download_done (Some code) s0
            = (set_need_update_cache true s0, Py.Raised Py.KeyError)) as Hmissing.
  { intros s0 Hnone. unfold download_done, loading_languages_pop, emit. monad_unfold.
    rewrite Htruthy. simpl. by rewrite Hnone. }
  split; [apply Hmissing|].
  intros [d Hentry].
  set (s1 := (download_done (Some code) s).1).
  assert (download_done (Some code) s = (s1, Py.Returned tt) /\
          loading_languages s1 = delete code (loading_languages s) /\
          emitted s1 = emitted s ++ [Downloaded (Some code)]) as (Hfirst & Hl1 & He1).
  { unfold s1, download_done, loading_languages_pop, emit. monad_unfold.
    rewrite Htruthy. simpl. by rewrite Hentry. }
  exists s1, (set_need_update_cache true s1).
  split; [exact Hfirst|]. split; [exact Hl1|]. split; [exact He1|].
  split; [|done]. apply Hmissing. rewrite Hl1. apply lookup_delete_eq.
Qed.

(** ** Progress within range *)

(** X11: with a positive announced length, as long as the blocks
    counted so far ([block_num * block_size]) do not exceed it, the
    emitted percentage lies between 0 and 100 and never decreases from
    one call to a later one. *)
Theorem update_progress_within_range (code : string) (block_num block_num' block_size
    total_size : Z) (s s' : state) :
  0 < total_size ->
  0 <= block_num * block_size ->
  block_num * block_size <= block_num' * block_size ->
  block_num' * block_size <= total_size ->
  exists p p',
    update_progress code block_num block_size total_size s
    = (set_emitted (fun l => l ++ [Downloading code (Percent p)]) s, Py.Returned tt) /\
    update_progress code block_num' block_size total_size s'
    = (set_emitted (fun l => l ++ [Downloading code (Percent p')]) s', Py.Returned tt) /\
    0 <= p /\ p <= p' /\ p' <= 100.
Proof.
  intros Htotal Hpos Hmono Hmax.
  exists (Py.int_quotient (block_num * block_size * 100) total_size),
         (Py.int_quotient (block_num' * block_size * 100) total_size).
  assert (forall a, 0 <= a <= 100 * total_size ->
            Py.int_truediv a total_size = Py.Returned (Py.int_quotient a total_size))
    as Hreturns.
  { intros a Ha. apply int_truediv_returns; [lia|].
    rewrite (Z.abs_eq a), (Z.abs_eq total_size) by lia.
    assert (100 < 2 ^ 1023) by done. nia. }
  unfold update_progress, emit. monad_unfold.
  rewrite !Hreturns by lia.
  split; [done|]. split; [done|].
  split; [apply int_quotient_lower; [done|lia..]|].
  split; [apply int_quotient_mono; lia|].
  apply int_quotient_upper; [done|lia..].
Qed.

(** ** A download from start to end *)


(** ** Preparing the data directory *)

Lemma length_append (a b : string) :
  String.length (a +:+ b) = (String.length a + String.length b)%nat.
Proof. induction a as [|c a IH]; [done|]. rewrite append_cons. simpl. by rewrite IH. Qed.

(** The pack path lies strictly below the directory: it is never the
    directory itself. *)
Lemma eng_pack_path_is_not_the_directory :
  Py.os_path_join tessdata_dir "eng.traineddata" <> tessdata_dir.
Proof.
  intros Heq. apply (f_equal String.length) in Heq. revert Heq.
  unfold Py.os_path_join. simpl. destruct (_ || _); rewrite !length_append; simpl; lia.
Qed.

(** What [shutil.copyfile] does: it writes the content of the source
    to the destination, or raises and changes nothing. *)
Lemma copyfile_outcome (src dst : string) (d : Disk.disk) :
  (exists data,
     Disk.contents d !! src = Some data /\
     Disk.below_plain_file src d = false /\
     Disk.below_plain_file dst d = false /\
     Disk.copyfile src dst d
     = ({| Disk.directories := Disk.directories d;
           Disk.contents := <[dst := data]> (Disk.contents d) |}, Disk.Returned tt)) \/
  (exists e, Disk.copyfile src dst d = (d, Disk.Raised e)).
Proof.
  unfold Disk.copyfile.
  destruct (_ && _); [right; by eexists|].
  destruct (Disk.below_plain_file src d); [right; by eexists|].
  destruct (Disk.contents d !! src) as [data|].
  - destruct (Disk.below_plain_file dst d); [right; by eexists|].
    destruct (bool_decide (dst ∈ _)); [right; by eexists|].
    left. by exists data.
  - destruct (bool_decide (src ∈ _)); right; by eexists.
Qed.

(** The disk after the first step of [init_tessdata]: the step raises
    and nothing has changed, or the data directory exists. *)
Lemma init_tessdata_after_mkdir (d : Disk.disk) :
  Disk.os_path_exists tessdata_dir d = false /\
    Disk.below_plain_file tessdata_dir d = true /\
    init_tessdata d = (d, Disk.Raised Disk.NotADirectoryError) \/
  exists d1,
    init_tessdata d
    = (if Disk.os_path_exists (Py.os_path_join tessdata_dir "eng.traineddata") d1
       then (d1, Disk.Returned tt)
       else Disk.copyfile "/app/share/appdata/eng.traineddata"
              (Py.os_path_join tessdata_dir "eng.traineddata") d1) /\
    Disk.contents d1 = Disk.contents d /\
    Disk.os_path_exists tessdata_dir d1 = true /\
    (Disk.os_path_exists tessdata_dir d = true /\
     Disk.directories d1 = Disk.directories d \/
     Disk.os_path_exists tessdata_dir d = false /\
     Disk.below_plain_file tessdata_dir d = false /\
     Disk.directories d1 = {[ tessdata_dir ]} ∪ Disk.directories d).
Proof.
  unfold init_tessdata, Disk.os_mkdir.
  destruct (Disk.os_path_exists tessdata_dir d) eqn:Hdir; simpl.
  - right. exists d. repeat split; [done|by left].
  - destruct (Disk.below_plain_file tessdata_dir d) eqn:Hfile; [by left|right].
    eexists. split; [reflexivity|]. simpl. split; [done|]. split; [|by right].
    unfold Disk.os_path_exists. simpl.
    rewrite bool_decide_eq_true_2; [done|]. apply elem_of_union_l. by apply elem_of_singleton.
Qed.

(** X13: [init_tessdata] never changes or removes a file that exists,
    whatever its outcome, and never removes a directory. *)
Theorem init_tessdata_keeps_existing_files (d : Disk.disk) :
  (forall path,
     is_Some (Disk.contents d !! path) ->
     Disk.contents (init_tessdata d).1 !! path = Disk.contents d !! path) /\
  Disk.directories d ⊆ Disk.directories (init_tessdata d).1.
Proof.
  destruct (init_tessdata_after_mkdir d) as [(_ & _ & ->)|(d1 & -> & Hc1 & _ & Hd1)];
    [done|].
  assert (Disk.directories d ⊆ Disk.directories d1) as Hsub.
  { destruct Hd1 as [[_ ->]|(_ & _ & ->)]; [done|]. apply union_subseteq_r. }
  set (dest := Py.os_path_join tessdata_dir "eng.traineddata").
  destruct (Disk.os_path_exists dest d1) eqn:Hdest; simpl.
  { split; [intros path _; by rewrite Hc1|done]. }
  apply orb_false_elim in Hdest as [_ Hfile].
  apply bool_decide_eq_false in Hfile.
  destruct (copyfile_outcome "/app/share/appdata/eng.traineddata" dest d1)
    as [(data & _ & _ & _ & ->)|[e ->]]; simpl.
  - split; [|done]. intros path Hpath.
    rewrite lookup_insert_ne; [by rewrite Hc1|].
    intros <-. apply Hfile. by rewrite Hc1.
  - split; [intros path _; by rewrite Hc1|done].
Qed.

(** X14: a run of [init_tessdata] that returns leaves a disk on which a
    further run returns as well and changes nothing. *)
Theorem init_tessdata_idempotent (d d' : Disk.disk) :
  init_tessdata d = (d', Disk.Returned tt) ->
  init_tessdata d' = (d', Disk.Returned tt).
Proof.
  destruct (init_tessdata_after_mkdir d) as [(_ & _ & ->)|(d1 & -> & Hc1 & Hdir1 & _)];
    [done|].
  set (dest := Py.os_path_join tessdata_dir "eng.traineddata").
  intros Hrun.
  assert (Disk.os_path_exists tessdata_dir d' = true /\
          Disk.os_path_exists dest d' = true) as [Hdir Hdest].
  { destruct (Disk.os_path_exists dest d1) eqn:Hdest1.
    - by injection Hrun as <-.
    - destruct (copyfile_outcome "/app/share/appdata/eng.traineddata" dest d1)
        as [(data & _ & _ & _ & Hcopy)|[e Hcopy]]; rewrite Hcopy in Hrun; [|done].
      injection Hrun as <-.
      unfold Disk.os_path_exists in *. simpl. split.
      + apply orb_true_iff in Hdir1 as [Hd|Hf]; [by rewrite Hd|].
        apply orb_true_iff. right. apply bool_decide_eq_true.
        apply bool_decide_eq_true in Hf.
        by rewrite lookup_insert_ne by apply eng_pack_path_is_not_the_directory.
      + apply orb_true_iff. right. apply bool_decide_eq_true.
        rewrite lookup_insert_eq. by eexists. }
  unfold init_tessdata. rewrite Hdir. simpl. fold dest. by rewrite Hdest.
Qed.


(** ** A response that announces no content *)


End LanguageManager.

Arguments Build_state {DownloadState}.
Arguments loading_languages {DownloadState} s.
Arguments _downloaded_codes {DownloadState} s.
Arguments _need_update_cache {DownloadState} s.
Arguments files {DownloadState} s.
Arguments directories {DownloadState} s.
Arguments emitted {DownloadState} s.
Arguments requests {DownloadState} s.
Arguments dispatched {DownloadState} s.
Arguments init {DownloadState} fs.
Arguments set_emitted {DownloadState} f s.
Arguments set_files {DownloadState} f s.
Arguments set_directories {DownloadState} f s.
Arguments listing {DownloadState} dir s.
Arguments directory_exists {DownloadState} dir s.
Arguments set_need_update_cache {DownloadState} b s.
Arguments urlretrieve {DownloadState} network url filename reporthook s.
Arguments update_progress {DownloadState} code block_num block_size total_size s.
Arguments download {DownloadState} DownloadState_new code s.
Arguments download_begin tessdata_dir tessdata_url tessdata_best_url {DownloadState}
  network code s.
Arguments download_done {DownloadState} code s.
Arguments run_job tessdata_dir tessdata_url tessdata_best_url {DownloadState}
  network code s.
Arguments remove_language tessdata_dir {DownloadState} code s.
Arguments perform_all tessdata_dir tessdata_url tessdata_best_url gettext {DownloadState}
  DownloadState_new network calls s.
Arguments get_downloaded_codes tessdata_dir gettext {DownloadState} force s.
Arguments returns_all_stems tessdata_dir gettext {DownloadState} force s.

(** * The catalog as shipped, and runs on concrete worlds *)

(** C3: whatever the translation, [get_available_codes] returns a
    rearrangement of the keys of the catalog built by [__init__], each
    key once, in the order of the titles that [get_language] gives.  The
    order is not that of the codes: with the untranslated titles,
    ["sqi"] (Albanian) comes right before ["amh"] (Amharic). *)
Theorem get_available_codes_sorted_by_title :
  (forall gettext : string -> string,
     exists codes,
       get_available_codes gettext = Py.Returned codes /\
       codes ≡ₚ Py.dict_keys (_languages gettext) /\
       NoDup codes /\
       StronglySorted (title_le gettext) codes) /\
  (exists codes,
     get_available_codes id = Py.Returned codes /\
     codes !! 1%nat = Some "sqi" /\
     codes !! 2%nat = Some "amh" /\
     String.ltb "amh" "sqi" = true).
Proof.
  split.
  - intros gettext.
    destruct (get_available_codes_by_title gettext) as (codes & Hrun & Hperm & Hnd & Hord).
    exists codes. rewrite languages_keys.
    split; [exact Hrun|]. split; [exact Hperm|]. split; [exact Hnd|exact Hord].
  - change (get_available_codes id)
      with (let d := _languages id in
            Py.sorted (fun code => Py.dict_get code d) (Py.dict_keys d)).
    eexists. split; [vm_compute; reflexivity|].
    repeat split.
Qed.

(** With the untranslated titles the translation keeps the titles
    apart, and a catalog code is recovered from its title. *)
Lemma get_language_code_left_inverse_witness :
  get_language_code id (get_language id "chi_sim") = Some "chi_sim".
Proof.
  apply (proj2 (get_language_code_left_inverse id (fun t1 t2 _ _ H => H))).
  apply (bool_decide_unpack _). by vm_compute.
Defined.




Lemma remove_language_removes_pack_witness :
  exists s',
    remove_language "/tessdata" "eng"
      (@init unit {[ "/tessdata/eng.traineddata" := "e"; "/tessdata/deu.traineddata" := "d" ]})
    = (s', Py.Returned tt) /\
    files s' !! "/tessdata/eng.traineddata" = None /\
    files s' !! "/tessdata/deu.traineddata" = Some "d" /\
    emitted s' = [Removed "eng"].
Proof.
  destruct (remove_language_removes_pack "/tessdata" unit "eng" "e"
              (init {[ "/tessdata/eng.traineddata" := "e";
                       "/tessdata/deu.traineddata" := "d" ]}))
    as (s' & Hrun & _ & Hgone & Hframe & Hemit); [by vm_compute|].
  exists s'. split; [exact Hrun|]. split; [exact Hgone|].
  split; [|exact Hemit].
  rewrite Hframe; [by vm_compute|]. by vm_compute.
Defined.

Lemma remove_language_missing_pack_witness :
  remove_language "/tessdata" "ita"
    (@init unit {[ "/tessdata/eng.traineddata" := "e" ]})
  = (init {[ "/tessdata/eng.traineddata" := "e" ]}, Py.Raised Py.FileNotFoundError).
Proof.
  apply (proj1 (remove_language_missing_pack "/tessdata" unit "ita"
                  (init {[ "/tessdata/eng.traineddata" := "e" ]})
                  ltac:(by vm_compute))).
Defined.

(** A second [download] of a code that is still loading. *)
Lemma download_not_deduplicated_witness :
  exists s',
    download tt "eng" (download tt "eng" (init ∅)).1 = (s', Py.Returned tt) /\
    loading_languages s' !! "eng" = Some tt /\
    emitted s'
    = [Added "eng"; Downloading "eng" Tenth; Added "eng"; Downloading "eng" Tenth] /\
    dispatched s' = ["eng"; "eng"].
Proof.
  destruct (download_not_deduplicated unit tt "eng" tt (download tt "eng" (init ∅)).1)
    as (s' & Hrun & _ & Hentry & Hemit & Hjobs & _); [by vm_compute|].
  exists s'. split; [exact Hrun|]. split; [exact Hentry|].
  split; [exact Hemit|exact Hjobs].
Defined.

(** A download with no reachable repository. *)
Lemma failed_download_stays_loading_witness :
  download_begin "/tessdata" "https://fast/" "https://best/" (fun _ _ => None) "ita"
    (download tt "ita" (init ∅)).1
  = (set_requests unit
       (fun l => l ++ [("https://best/ita.traineddata", "/tessdata/ita.traineddata");
                       ("https://fast/ita.traineddata", "/tessdata/ita.traineddata")])
       (download tt "ita" (init ∅)).1,
     Py.Returned None) /\
  loading_languages
    (run_job "/tessdata" "https://fast/" "https://best/" (fun _ _ => None) "ita"
       (download tt "ita" (init ∅)).1).1 !! "ita"
  = Some tt /\
  is_Some
    (loading_languages
       (perform_all "/tessdata" "https://fast/" "https://best/" id tt (fun _ _ => None)
          [Download "eng"; Job "eng"; GetDownloadedCodes true; RemoveLanguage "ita"]
          (run_job "/tessdata" "https://fast/" "https://best/" (fun _ _ => None) "ita"
             (download tt "ita" (init ∅)).1).1) !! "ita").
Proof.
  destruct (failed_download_stays_loading "/tessdata" "https://fast/" "https://best/"
              id unit tt (fun _ _ => None) "ita" (download tt "ita" (init ∅)).1
              (set_requests unit
                 (fun l => l ++ [("https://best/ita.traineddata", "/tessdata/ita.traineddata")])
                 (download tt "ita" (init ∅)).1)
              (set_requests unit
                 (fun l => l ++ [("https://best/ita.traineddata", "/tessdata/ita.traineddata");
                                 ("https://fast/ita.traineddata", "/tessdata/ita.traineddata")])
                 (download tt "ita" (init ∅)).1)
              Py.URLError Py.URLError)
    as (Hbegin & _ & _ & Hloading & Hstays); [by vm_compute..|].
  split; [exact Hbegin|]. split; [rewrite Hloading; by vm_compute|].
  apply Hstays; [|vm_compute; by eexists].
  repeat constructor; discriminate.
Defined.



(** ** Sample runs *)

Example splitext_samples :
  Py.os_path_splitext <$> ["eng.traineddata"; "chi_sim.tar.gz"; ".hidden"; "dir.d/file"; "a."]
  = [("eng", ".traineddata"); ("chi_sim.tar", ".gz"); (".hidden", ""); ("dir.d/file", "");
     ("a", ".")].
Proof. reflexivity. Qed.

Example join_samples :
  [Py.os_path_join "/tessdata" "eng.traineddata"; Py.os_path_join "/tessdata/" "eng.traineddata";
   Py.os_path_join "/tessdata" "/etc/passwd"; Py.os_path_join "" "eng.traineddata"]
  = ["/tessdata/eng.traineddata"; "/tessdata/eng.traineddata"; "/etc/passwd";
     "eng.traineddata"].
Proof. reflexivity. Qed.

(** An empty pack announced with [Content-Length: 0] makes the hook
    divide by zero, so the first attempt raises and the fallback is
    used. *)
Example download_begin_zero_length :
  let network := fun (_ : nat) (url : string) =>
    if decide (url = "https://best/deu.traineddata")
    then Some {| content_length := Some 0; reads := [] |}
    else if decide (url = "https://fast/deu.traineddata")
    then Some {| content_length := None; reads := [Block "abc"] |}
    else None in
  let r := download_begin "/tessdata" "https://fast/" "https://best/" network "deu"
             (@init unit ∅) in
  r.2 = Py.Returned (Some "deu") /\
  requests r.1 = [("https://best/deu.traineddata", "/tessdata/deu.traineddata");
                  ("https://fast/deu.traineddata", "/tessdata/deu.traineddata")] /\
  files r.1 !! "/tessdata/deu.traineddata" = Some "abc" /\
  emitted r.1 = [].
Proof. by vm_compute. Qed.

Example download_begin_progress :
  let network := fun (_ : nat) (url : string) =>
    if decide (url = "https://best/eng.traineddata")
    then Some {| content_length := Some 10; reads := [Block "hello"; Block "world"] |}
    else None in
  let r := download_begin "/tessdata" "https://fast/" "https://best/" network "eng"
             (@init unit ∅) in
  r.2 = Py.Returned (Some "eng") /\
  requests r.1 = [("https://best/eng.traineddata", "/tessdata/eng.traineddata")] /\
  files r.1 !! "/tessdata/eng.traineddata" = Some "helloworld" /\
  emitted r.1 = [Downloading "eng" (Percent 0); Downloading "eng" (Percent 81920);
                 Downloading "eng" (Percent 163840)].
Proof. by vm_compute. Qed.

Example get_downloaded_codes_sample :
  (get_downloaded_codes "/tessdata" id false
     (@init unit {[ "/tessdata/eng.traineddata" := "e"; "/tessdata/deu.traineddata" := "d";
                    "/tessdata/notes.txt" := "n"; "/tessdata/sub/afr.traineddata" := "a";
                    "/elsewhere/fra.traineddata" := "f" ]})).2
  = Py.Returned ["eng"; "deu"].
Proof. by vm_compute. Qed.

(** A subdirectory of the data directory is listed like a file, and
    its name counts as a stem. *)
Example get_downloaded_codes_subdirectory :
  listing "/tessdata" (@init unit {[ "/tessdata/afr/readme.txt" := "r" ]}) = ["afr"] /\
  (get_downloaded_codes "/tessdata" id false
     (@init unit {[ "/tessdata/afr/readme.txt" := "r" ]})).2 = Py.Returned ["afr"].
Proof. by vm_compute. Qed.

(** Without a data directory the listing raises, also when a plain
    file has its path; an empty one lists nothing. *)
Example get_downloaded_codes_no_directory :
  get_downloaded_codes "/tessdata" id false (@init unit ∅)
  = (init ∅, Py.Raised Py.FileNotFoundError) /\
  (get_downloaded_codes "/tessdata" id false (@init unit {[ "/tessdata" := "a file" ]})).2
  = Py.Raised Py.NotADirectoryError /\
  (get_downloaded_codes "/tessdata" id false
     (set_directories (fun _ => {[ "/tessdata" ]}) (@init unit ∅))).2 = Py.Returned [].
Proof. by vm_compute. Qed.

(** After the last pack is removed the data directory is still there. *)
Example remove_last_pack :
  (get_downloaded_codes "/tessdata" id false
     (remove_language "/tessdata" "eng"
        (@init unit {[ "/tessdata/eng.traineddata" := "e" ]})).1).2 = Py.Returned [].
Proof. by vm_compute. Qed.

(** The float quotient is rounded before [int] cuts it: a quotient just
    below 99 that no double separates from 99 gives 99, where the
    integer quotient is 98.  Past the largest double the division
    raises. *)
Example int_truediv_samples :
  Py.int_truediv (34359738340 * 8192 * 100) 284318158061899 = Py.Returned 99 /\
  (34359738340 * 8192 * 100) ÷ 284318158061899 = 98 /\
  Py.int_truediv 7 2 = Py.Returned 3 /\
  Py.int_truediv (-7) 2 = Py.Returned (-3) /\
  Py.int_truediv (2 ^ 53 + 3) 1 = Py.Returned (2 ^ 53 + 4) /\
  Py.int_truediv (2 ^ 1024) 1 = Py.Raised Py.OverflowError /\
  Py.int_truediv (2 ^ 1024) 0 = Py.Raised Py.ZeroDivisionError.
Proof. by vm_compute. Qed.

(** * The further properties on concrete worlds *)

Arguments get_downloaded_languages tessdata_dir gettext {DownloadState} force s.
Arguments received {DownloadState} filename data signals s.

Lemma installed_pack_is_listed_witness :
  exists codes s',
    get_downloaded_codes "/tessdata" id false
      (@init unit {[ "/tessdata/deu.traineddata" := "d"; "/tessdata/notes.txt" := "n" ]})
    = (s', Py.Returned codes) /\ "deu" ∈ codes.
Proof.
  apply (installed_pack_is_listed "/tessdata" id unit "deu" "d" false).
  - apply (bool_decide_unpack _). by vm_compute.
  - by vm_compute.
  - done.
Defined.

Lemma removed_pack_is_not_listed_witness :
  exists s1 codes s2,
    remove_language "/tessdata" "eng"
      (@init unit {[ "/tessdata/eng.traineddata" := "e"; "/tessdata/deu.traineddata" := "d" ]})
    = (s1, Py.Returned tt) /\
    directory_exists "/tessdata" s1 = true /\
    get_downloaded_codes "/tessdata" id false s1 = (s2, Py.Returned codes) /\
    "eng" ∉ codes.
Proof.
  apply (removed_pack_is_not_listed "/tessdata" id unit "eng" "e" false).
  - by vm_compute.
  - by vm_compute.
  - intros path name [[[c Hc] Hne]|Hin] Hentry; [|by apply elem_of_empty in Hin].
    simpl in Hc, Hne.
    apply lookup_insert_Some in Hc as [[<- _]|[_ Hc]]; [by destruct Hne|].
    apply lookup_singleton_Some in Hc as [<- _].
    vm_compute in Hentry. injection Hentry as <-. by vm_compute.
Defined.



Lemma download_done_missing_entry_witness :
  download_done (Some "eng") (@init unit ∅)
  = (set_need_update_cache true (init ∅), Py.Raised Py.KeyError).
Proof.
  apply (proj1 (download_done_missing_entry unit "eng" (init ∅) ltac:(done))).
  by vm_compute.
Defined.

Lemma update_progress_within_range_witness :
  exists p p',
    update_progress "eng" 1 8192 20000 (@init unit ∅)
    = (set_emitted (fun l => l ++ [Downloading "eng" (Percent p)]) (init ∅),
       Py.Returned tt) /\
    update_progress "eng" 2 8192 20000 (@init unit ∅)
    = (set_emitted (fun l => l ++ [Downloading "eng" (Percent p')]) (init ∅),
       Py.Returned tt) /\
    0 <= p /\ p <= p' /\ p' <= 100.
Proof.
  apply (update_progress_within_range unit "eng" 1 2 8192 20000); lia.
Defined.


Lemma init_tessdata_idempotent_witness :
  init_tessdata "/tessdata"
    (init_tessdata "/tessdata"
       {| Disk.directories := ∅;
          Disk.contents := {[ "/app/share/appdata/eng.traineddata" := "pack" ]} |}).1
  = ((init_tessdata "/tessdata"
        {| Disk.directories := ∅;
           Disk.contents := {[ "/app/share/appdata/eng.traineddata" := "pack" ]} |}).1,
     Disk.Returned tt).
Proof.
  apply (init_tessdata_idempotent "/tessdata"
           {| Disk.directories := ∅;
              Disk.contents := {[ "/app/share/appdata/eng.traineddata" := "pack" ]} |}).
  by vm_compute.
Defined.


